(** * gofer: a shallow embedding of the gateway's parser, renderer and handlers

    Go strings are byte strings; they are modelled as [string] of [ascii]
    (eight-bit characters).  Runtime panics are [None]. *)

From Stdlib Require Import Ascii String List Bool Arith ZArith Lia.
Import ListNotations.
Open Scope string_scope.

(** ** Go string primitives *)

Definition ch (c : ascii) : string := String c EmptyString.

Definition TAB : ascii := "009"%char.
Definition NL : ascii := "010"%char.
Definition CR : ascii := "013"%char.
Definition DQ : ascii := "034"%char.

Definition tab : string := ch TAB.
Definition nl : string := ch NL.
Definition dq : string := ch DQ.

(** A byte given by its code. *)
Definition b (n : nat) : ascii := ascii_of_nat n.

Fixpoint bytes (ns : list nat) : string :=
  match ns with
  | [] => EmptyString
  | n :: ns' => String (b n) (bytes ns')
  end.

(** [strings.Split(s, sep)] for a one-byte separator. *)
Fixpoint split_on (sep : ascii) (s : string) : list string :=
  match s with
  | EmptyString => [EmptyString]
  | String c r =>
      let rest := split_on sep r in
      if Ascii.eqb c sep then EmptyString :: rest
      else match rest with
           | f :: fs => String c f :: fs
           | [] => [ch c]
           end
  end.

(** Byte-wise reversal, used to run suffix trimming as prefix trimming. *)
Fixpoint srev (s : string) : string :=
  match s with
  | EmptyString => EmptyString
  | String c r => srev r ++ ch c
  end.

Fixpoint strip_prefix (p s : string) : option string :=
  match p, s with
  | EmptyString, _ => Some s
  | String a p', String c s' => if Ascii.eqb a c then strip_prefix p' s' else None
  | String _ _, EmptyString => None
  end.

(** Remove the first of [encs] that is a prefix of [s]. *)
Fixpoint first_strip (encs : list string) (s : string) : option string :=
  match encs with
  | [] => None
  | e :: es =>
      match strip_prefix e s with
      | Some r => Some r
      | None => first_strip es s
      end
  end.

Fixpoint trim_fuel (encs : list string) (n : nat) (s : string) : string :=
  match n with
  | O => s
  | S n' =>
      match first_strip encs s with
      | Some r => trim_fuel encs n' r
      | None => s
      end
  end.

(** Strip leading occurrences of any of [encs]; every step removes at
    least one byte, so [length s] steps suffice. *)
Definition trim_prefixes (encs : list string) (s : string) : string :=
  trim_fuel encs (String.length s) s.

Definition trim_suffixes (encs : list string) (s : string) : string :=
  srev (trim_prefixes (map srev encs) (srev s)).

(** The UTF-8 encodings of the runes for which [unicode.IsSpace] holds:
    \t \n \v \f \r, space, U+0085, U+00A0, U+1680, U+2000-U+200A, U+2028,
    U+2029, U+202F, U+205F, U+3000.  Invalid UTF-8 decodes to U+FFFD, which
    is not a space, so matching these byte sequences at either end of a
    string is what [TrimLeftFunc]/[TrimRightFunc] do. *)
Definition white_space_utf8 : list string :=
  map bytes
    ([[9]; [10]; [11]; [12]; [13]; [32]; [194; 133]; [194; 160];
      [225; 154; 128]]
     ++ map (fun k => [226; 128; k]) (seq 128 11)
     ++ [[226; 128; 168]; [226; 128; 169]; [226; 128; 175];
         [226; 129; 159]; [227; 128; 128]]).

(** [strings.TrimSpace] (its ASCII fast path computes the same result as
    [TrimFunc(s, unicode.IsSpace)]). *)
Definition TrimSpace (s : string) : string :=
  trim_suffixes white_space_utf8 (trim_prefixes white_space_utf8 s).

(** [strings.TrimRight(s, cutset)] for an ASCII cutset: trailing bytes of
    the cutset are removed. *)
Definition TrimRight (s cutset : string) : string :=
  trim_suffixes (map ch (list_ascii_of_string cutset)) s.

Example TrimSpace_ex1 : TrimSpace (" " ++ tab ++ "ab c" ++ ch CR ++ nl) = "ab c".
Proof. vm_compute. reflexivity. Qed.

Example TrimSpace_ex2 : TrimSpace (bytes [226; 128; 128] ++ "x" ++ bytes [194; 160]) = "x".
Proof. vm_compute. reflexivity. Qed.

Example TrimRight_ex : TrimRight (" a b " ++ tab ++ ch CR) (" " ++ tab ++ ch CR) = " a b".
Proof. vm_compute. reflexivity. Qed.

Example split_ex : split_on NL ("a" ++ nl ++ "." ++ nl) = ["a"; "."; ""].
Proof. vm_compute. reflexivity. Qed.

(** ** url.QueryEscape / url.QueryUnescape (query-component mode) *)

Definition is_alnum (c : ascii) : bool :=
  let n := nat_of_ascii c in
  (Nat.leb 48 n && Nat.leb n 57) || (Nat.leb 65 n && Nat.leb n 90)
  || (Nat.leb 97 n && Nat.leb n 122).

(** [shouldEscape(c, encodeQueryComponent)] is false exactly here. *)
Definition is_unreserved (c : ascii) : bool :=
  is_alnum c || Ascii.eqb c "-" || Ascii.eqb c "_" || Ascii.eqb c "."
  || Ascii.eqb c "~".

Definition upperhex : string := "0123456789ABCDEF".

Definition hex_digit (d : nat) : ascii :=
  match String.get d upperhex with Some c => c | None => "0"%char end.

Fixpoint QueryEscape (s : string) : string :=
  match s with
  | EmptyString => EmptyString
  | String c r =>
      (if is_unreserved c then ch c
       else if Ascii.eqb c " " then "+"
       else String "%" (String (hex_digit (nat_of_ascii c / 16))
                          (ch (hex_digit (nat_of_ascii c mod 16)))))
      ++ QueryEscape r
  end.

Definition unhex (c : ascii) : option nat :=
  let n := nat_of_ascii c in
  if Nat.leb 48 n && Nat.leb n 57 then Some (n - 48)
  else if Nat.leb 97 n && Nat.leb n 102 then Some (n - 87)
  else if Nat.leb 65 n && Nat.leb n 70 then Some (n - 55)
  else None.

(** [url.QueryUnescape]: '+' is a space, %XX a byte, a bad escape an error. *)
Fixpoint QueryUnescape (s : string) : option string :=
  match s with
  | EmptyString => Some EmptyString
  | String c r =>
      if Ascii.eqb c "%" then
        match r with
        | String h1 (String h2 r') =>
            match unhex h1, unhex h2, QueryUnescape r' with
            | Some x, Some y, Some u => Some (String (ascii_of_nat (x * 16 + y)) u)
            | _, _, _ => None
            end
        | _ => None
        end
      else if Ascii.eqb c "+" then
        option_map (String " ") (QueryUnescape r)
      else option_map (String c) (QueryUnescape r)
  end.

(** [strings.Cut(s, "=")]. *)
Fixpoint cut_eq (s : string) : string * string :=
  match s with
  | EmptyString => (EmptyString, EmptyString)
  | String c r =>
      if Ascii.eqb c "=" then (EmptyString, r)
      else let '(k, v) := cut_eq r in (String c k, v)
  end.

Fixpoint contains_byte (c : ascii) (s : string) : bool :=
  match s with
  | EmptyString => false
  | String d r => Ascii.eqb c d || contains_byte c r
  end.

(** [url.ParseQuery] as used by [r.URL.Query()] (errors are dropped and the
    offending pair skipped): the pairs, in order. *)
Definition parse_pair (kv : string) : option (string * string) :=
  if contains_byte ";" kv then None
  else if String.eqb kv "" then None
  else let '(k, v) := cut_eq kv in
       match QueryUnescape k, QueryUnescape v with
       | Some k', Some v' => Some (k', v')
       | _, _ => None
       end.

Definition ParseQuery (q : string) : list (string * string) :=
  flat_map (fun kv => match parse_pair kv with Some p => [p] | None => [] end)
           (split_on "&" q).

(** [url.Values.Get]: the first value of the key, or "". *)
Fixpoint query_get (key : string) (vs : list (string * string)) : string :=
  match vs with
  | [] => EmptyString
  | (k, v) :: vs' => if String.eqb k key then v else query_get key vs'
  end.

(** The query part of a request target: what follows the first '?'. *)
Fixpoint raw_query (target : string) : string :=
  match target with
  | EmptyString => EmptyString
  | String c r => if Ascii.eqb c "?" then r else raw_query r
  end.

Example QueryEscape_ex : QueryEscape "/a b&c" = "%2Fa+b%26c".
Proof. vm_compute. reflexivity. Qed.

Example ParseQuery_ex :
  query_get "selector" (ParseQuery (raw_query "/?type=1&host=h&selector=%2Fa+b"))
  = "/a b".
Proof. vm_compute. reflexivity. Qed.

(** ** Directory records and the line parser of [formatMenuHTML] *)

Record DirRecord := mkRecord {
  itemType : ascii;
  display : string;
  selector : string;
  host : string;
  port : string
}.

(** What one line of the reply does in the loop of [formatMenuHTML]
    (src/unnamed/part_003, lines 242-283). *)
Inductive line_step :=
| LSkip                  (* continue *)
| LStop                  (* break on the "." terminator *)
| LPanic                 (* fields[0][0] on an empty first field *)
| LEmit (r : DirRecord).

Definition malformed_prefix : string := "Malformed Line (Type 3 Error): ".

Definition display_cutset : string := " " ++ tab ++ ch CR.

Definition parse_line (currentHost currentPort line : string) : line_step :=
  if String.eqb (TrimSpace line) "" then LSkip
  else if String.eqb (TrimSpace line) "." then LStop
  else
    let fields := split_on TAB line in
    let extracted :=
      if Nat.ltb (List.length fields) 4 then
        Some ("3"%char, malformed_prefix ++ TrimSpace line, "/",
              currentHost, currentPort)
      else
        match fields with
        | f0 :: f1 :: f2 :: f3 :: _ =>
            match f0 with
            | EmptyString => None            (* index out of range *)
            | String t rest => Some (t, rest, f1, f2, f3)
            end
        | _ => None                          (* unreachable: len >= 4 *)
        end in
    match extracted with
    | None => LPanic
    | Some (t, d, sel, h, p) =>
        let d' := TrimRight d display_cutset in
        if String.eqb d' "" then LSkip else LEmit (mkRecord t d' sel h p)
    end.

Fixpoint parse_lines (currentHost currentPort : string) (lines : list string)
  : option (list DirRecord) :=
  match lines with
  | [] => Some []
  | l :: ls =>
      match parse_line currentHost currentPort l with
      | LSkip => parse_lines currentHost currentPort ls
      | LStop => Some []
      | LPanic => None
      | LEmit r => option_map (cons r) (parse_lines currentHost currentPort ls)
      end
  end.

(** The records [formatMenuHTML] renders, in order; [None] is a panic. *)
Definition parse_menu (raw currentHost currentPort : string) : option (list DirRecord) :=
  parse_lines currentHost currentPort (split_on NL raw).

(** ** Rendering (src/unnamed/part_003, lines 147-157 and 285-384) *)

Definition LOCAL_SERVER_PORT : string := "8000".

(** [fmt.Sprintf("%c", b)] of a byte: the rune [b] in UTF-8. *)
Definition fmt_c (c : ascii) : string :=
  let n := nat_of_ascii c in
  if Nat.ltb n 128 then ch c
  else String (b (192 + n / 64)) (ch (b (128 + n mod 64))).

Definition p_open : string := "<p class=" ++ dq ++ "gopher-link" ++ dq ++ ">".

Definition span (color icon : string) : string :=
  "<span style=" ++ dq ++ "color: " ++ color ++ ";" ++ dq ++ ">" ++ icon ++ "</span>".

Definition anchor (href disp : string) : string :=
  "<a href=" ++ dq ++ href ++ dq ++ ">" ++ disp ++ "</a>".

(** The follow-up link into the gateway's own navigation endpoint. *)
Definition nav_href (t : ascii) (h p sel : string) : string :=
  "/?type=" ++ fmt_c t ++ "&host=" ++ h ++ "&port=" ++ p
  ++ "&selector=" ++ QueryEscape sel.

(** The [writeLink] closure. *)
Definition writeLink (icon : string) (t : ascii) (h p sel disp : string) : string :=
  p_open ++ icon ++ anchor (nav_href t h p sel) disp ++ "</p>" ++ nl.

Definition ph_href (currentHost currentPort currentSelector h p sel : string) : string :=
  let phPort := if String.eqb p "" then "105" else p in
  let returnTo := "/?host=" ++ currentHost ++ "&port=" ++ currentPort
                  ++ "&selector=" ++ QueryEscape currentSelector in
  let phURL := "/ph/" ++ h ++ ":" ++ phPort ++ "?return=" ++ QueryEscape returnTo in
  if String.eqb sel "" then phURL else phURL ++ "?selector=" ++ QueryEscape sel.

Definition render_record (currentHost currentPort currentSelector : string)
    (r : DirRecord) : string :=
  let t := itemType r in
  let d := display r in
  let h := host r in
  let p := port r in
  let sel := selector r in
  if Ascii.eqb t "0" then writeLink "[TXT]" t h p sel d
  else if Ascii.eqb t "1" then writeLink "[ 1 ]" t h p sel d
  else if Ascii.eqb t "2" then
    p_open ++ "[PhC]"
    ++ anchor (ph_href currentHost currentPort currentSelector h p sel) d
    ++ "</p>" ++ nl
  else if Ascii.eqb t "3" then p_open ++ span "red" "[ERR]" ++ d ++ "</p>" ++ nl
  else if Ascii.eqb t "4" then writeLink "[HQX]" t h p sel d
  else if Ascii.eqb t "5" then writeLink "[DOS]" t h p sel d
  else if Ascii.eqb t "6" then writeLink "[UUE]" t h p sel d
  else if Ascii.eqb t "7" then
    p_open ++ "[ 7 ]"
    ++ anchor ("/search?host=" ++ h ++ "&port=" ++ p ++ "&selector=" ++ QueryEscape sel) d
    ++ "</p>" ++ nl
  else if Ascii.eqb t "g" then writeLink "[GIF]" t h p sel d
  else if Ascii.eqb t "I" then writeLink "[IMG]" t h p sel d
  else if Ascii.eqb t "i" then p_open ++ span "gray" "[ i ]" ++ d ++ "</p>" ++ nl
  else p_open ++ span "red" ("[!" ++ fmt_c t ++ "!]") ++ anchor (nav_href t h p sel) d
       ++ "</p>" ++ nl.

(** The page shell.  The style sheet and the layout markup of the source's
    template are constant text and are abbreviated here; the interpolated
    values are kept. *)
Definition page_head (currentHost currentPort currentSelector uri : string) : string :=
  "<!DOCTYPE html><html><head><title>gofer - " ++ currentHost ++ ":" ++ currentPort
  ++ currentSelector ++ "</title><style>...</style></head><body>"
  ++ "<div class=" ++ dq ++ "query-bar" ++ dq ++ "><form action=" ++ dq ++ "/" ++ dq
  ++ " method=" ++ dq ++ "GET" ++ dq ++ "><span class=" ++ dq ++ "query-label" ++ dq
  ++ ">gopher://</span><input type=" ++ dq ++ "text" ++ dq ++ " id=" ++ dq ++ "uri" ++ dq
  ++ " name=" ++ dq ++ "uri" ++ dq ++ " value=" ++ dq ++ uri ++ dq ++ "></form></div>".

Definition heartbeat_script : string :=
  "<script>setInterval(function() { fetch('http://localhost:" ++ LOCAL_SERVER_PORT
  ++ "/heartbeat') ... }, 55000);</script>".

Definition formatMenuHTML (rawGopherData currentHost currentPort currentSelector : string)
    (embedded : bool) : option string :=
  let currentGopherURI := currentHost ++ ":" ++ currentPort ++ currentSelector in
  match parse_menu rawGopherData currentHost currentPort with
  | None => None
  | Some recs =>
      Some ((if embedded then "" else page_head currentHost currentPort currentSelector
                                                currentGopherURI)
            ++ String.concat "" (map (render_record currentHost currentPort currentSelector) recs)
            ++ heartbeat_script
            ++ (if embedded then "" else "</body></html>"))
  end.

Example parse_menu_ex :
  parse_menu ("1A Directory" ++ tab ++ "/sub" ++ tab ++ "example.org" ++ tab ++ "70"
              ++ nl ++ "." ++ nl) "example.org" "70"
  = Some [mkRecord "1" "A Directory" "/sub" "example.org" "70"].
Proof. vm_compute. reflexivity. Qed.

Example parse_menu_bad :
  parse_menu ("badline" ++ nl) "h" "p"
  = Some [mkRecord "3" "Malformed Line (Type 3 Error): badline" "/" "h" "p"].
Proof. vm_compute. reflexivity. Qed.

(** ** Transport (src/unnamed/part_003, lines 86-125) *)

(** Results of fallible Go calls: a value, or the error's [Error()] text. *)
Inductive result (A : Type) :=
| Ok (a : A)
| Err (e : string).
Arguments Ok {A} a.
Arguments Err {A} e.

(** How a read loop on the socket ends. *)
Inductive read_end :=
| ReadEOF                    (* the peer closed the connection *)
| ReadTimeout                (* the deadline set by SetDeadline expired *)
| ReadError (cause : string). (* any other I/O error *)

Definition read_end_text (e : read_end) : string :=
  match e with
  | ReadEOF => "EOF"
  | ReadTimeout => "i/o timeout"
  | ReadError cause => cause
  end.

(** What the network does on one connection: whether the dial and the write
    fail (with the cause's text), the bytes the peer sends, and how reading
    stops. *)
Record conn_script := mkConn {
  dial_error : option string;
  write_error : option string;
  reply : string;
  reply_end : read_end
}.

Definition GOPHER_REQUEST_TERMINATOR : string := ch CR ++ nl.

(** [net.JoinHostPort]. *)
Definition JoinHostPort (h p : string) : string :=
  if contains_byte ":" h then "[" ++ h ++ "]:" ++ p else h ++ ":" ++ p.

(** [gopherRequestBytes]: dial, write [selector ++ "\r\n"], [io.ReadAll]. *)
Definition gopherRequestBytes (net : conn_script) (h p sel : string) : result string :=
  let address := JoinHostPort h p in
  match dial_error net with
  | Some cause => Err ("failed to connect to Gopher server " ++ address ++ ": " ++ cause)
  | None =>
      match write_error net with
      | Some cause => Err ("failed to write selector to socket: " ++ cause)
      | None =>
          match reply_end net with
          | ReadEOF => Ok (reply net)
          | ReadTimeout => Err ("socket timeout while reading from " ++ address)
          | ReadError cause => Err ("error reading from socket: " ++ cause)
          end
      end
  end.

Definition gopherRequest (net : conn_script) (h p sel : string) : result string :=
  match gopherRequestBytes net h p sel with
  | Err e => Err e
  | Ok bs => Ok bs
  end.

(** The earlier variant in src/gofer.go (lines 81-128): it reads line by
    line and leaves the loop on EOF and on a timeout alike. *)
Module Legacy.
Definition gopherRequest (net : conn_script) (h p sel : string) : result string :=
  let address := JoinHostPort h p in
  match dial_error net with
  | Some cause => Err ("failed to connect to Gopher server " ++ address ++ ": " ++ cause)
  | None =>
      match write_error net with
      | Some cause => Err ("failed to write selector to socket: " ++ cause)
      | None =>
          match reply_end net with
          | ReadEOF => Ok (reply net)
          | ReadTimeout => Ok (reply net)
          | ReadError cause => Err ("error reading from socket: " ++ cause)
          end
      end
  end.
End Legacy.

(** ** HTTP responses *)

Record response := mkResponse {
  status : nat;
  content_type : string;
  body : option string   (* None: the handler panicked, nothing is sent *)
}.

(** [http.Error(w, msg, code)]. *)
Definition http_error (code : nat) (msg : string) : response :=
  mkResponse code "text/plain; charset=utf-8" (Some (msg ++ nl)).

Definition html_page (page : option string) : response :=
  mkResponse 200 "text/html; charset=utf-8" page.

(** [strings.TrimPrefix]. *)
Definition TrimPrefix (s pre : string) : string :=
  match strip_prefix pre s with Some r => r | None => s end.

(** [strings.Contains]. *)
Definition Contains (s sub : string) : bool :=
  match String.index 0 sub s with Some _ => true | None => false end.

(** ** serveGopher (src/unnamed/part_003, lines 414-531) *)

Definition DEFAULT_GOPHER_HOST : string := "freeshell.org".
Definition DEFAULT_GOPHER_PORT : string := "70".

(** The parts of a [*url.URL] the handlers read. *)
Record URL := mkURL {
  scheme : string;
  hostname : string;   (* u.Hostname() *)
  uport : string;      (* u.Port() *)
  upath : string       (* u.Path *)
}.

Definition isTransparentType (t : ascii) : bool :=
  Ascii.eqb t "0" || Ascii.eqb t "1".

Section Handlers.

(** [url.Parse] ([None]: it returned an error) and
    [http.DetectContentType], both from Go's standard library. *)
Variable url_parse : string -> option URL.
Variable DetectContentType : string -> string.

(** The type hint, host, port and selector [serveGopher] settles on. *)
Definition serve_target (q : list (string * string)) : string * string * string * string :=
  let gopherURI := query_get "uri" q in
  let gopherTypeQuery := query_get "type" q in
  let h := query_get "host" q in
  let p := query_get "port" q in
  let sel := query_get "selector" q in
  if negb (String.eqb gopherURI "") then
    let raw := if Contains gopherURI "://" then gopherURI else "gopher://" ++ gopherURI in
    match url_parse raw with
    | Some u =>
        if String.eqb (scheme u) "gopher" || String.eqb (scheme u) "" then
          (gopherTypeQuery, hostname u,
           (if String.eqb (uport u) "" then DEFAULT_GOPHER_PORT else uport u),
           TrimPrefix (upath u) "/")
        else (gopherTypeQuery, h, p, sel)
    | None => (gopherTypeQuery, h, p, sel)
    end
  else
    (gopherTypeQuery,
     (if String.eqb h "" then DEFAULT_GOPHER_HOST else h),
     (if String.eqb p "" then DEFAULT_GOPHER_PORT else p),
     (if String.eqb sel "" then "/" else sel)).

(** The synthetic type-3 listing written on a transport error. *)
Definition connection_failed_listing (err h p : string) : string :=
  "3Connection failed: " ++ err ++ tab ++ "/" ++ tab ++ h ++ tab ++ p ++ nl ++ "." ++ nl.

Definition connection_failed_page (err h p sel : string) : response :=
  html_page (formatMenuHTML (connection_failed_listing err h p) h p sel false).

(** [net n] is the connection of the [n]-th transport call. *)
Definition serveGopher (net : nat -> conn_script) (q : list (string * string)) : response :=
  let '(gopherTypeQuery, h, p, sel) := serve_target q in
  match gopherRequest (net 0) h p sel with
  | Err e => connection_failed_page e h p sel
  | Ok rawResponse0 =>
      let gopherType := match gopherTypeQuery with
                        | String c _ => c
                        | EmptyString => "1"%char
                        end in
      let fetched :=
        if isTransparentType gopherType then
          match gopherRequest (net 1) h p sel with
          | Ok s => Ok (s, "")
          | Err e => Err e
          end
        else
          match gopherRequestBytes (net 1) h p sel with
          | Ok bs => Ok (rawResponse0, bs)
          | Err e => Err e
          end in
      match fetched with
      | Err e => connection_failed_page e h p sel
      | Ok (rawResponse, rawBytes) =>
          if Ascii.eqb gopherType "0" || Ascii.eqb gopherType "i" then
            mkResponse 200 "text/plain; charset=utf-8" (Some rawResponse)
          else if Ascii.eqb gopherType "1" then
            html_page (formatMenuHTML rawResponse h p sel false)
          else mkResponse 200 (DetectContentType rawBytes) (Some rawBytes)
      end
  end.

(** [handleFocus] (src/unnamed/part_003, lines 535-585): the new
    last-activity time, the response, and the URL handed to the browser
    launcher, if any. *)
Definition handleFocus (now : Z) (q : list (string * string))
  : Z * response * option string :=
  let gopherURI := query_get "uri" q in
  if String.eqb gopherURI "" then
    (now, http_error 400 "Missing 'uri' parameter.", None)
  else
    match url_parse gopherURI with
    | Some u =>
        if String.eqb (scheme u) "gopher" then
          let p := if String.eqb (uport u) "" then DEFAULT_GOPHER_PORT else uport u in
          let localURL := "http://localhost:" ++ LOCAL_SERVER_PORT ++ "/?host="
                          ++ hostname u ++ "&port=" ++ p ++ "&selector="
                          ++ TrimPrefix (upath u) "/" in
          (now, mkResponse 200 "text/plain; charset=utf-8"
                  (Some ("Redirecting session to: " ++ localURL)), Some localURL)
        else (now, http_error 400 "Invalid gopher URI.", None)
    | None => (now, http_error 400 "Invalid gopher URI.", None)
    end.

End Handlers.

(** The request a Secondary sends to the Primary (main, lines 632-647). *)
Definition FOCUS_ENDPOINT : string := "/focus".

Definition secondary_target (args : list string) : string :=
  match args with
  | _ :: arg :: _ =>
      "http://localhost:" ++ LOCAL_SERVER_PORT ++ FOCUS_ENDPOINT ++ "?uri=" ++ QueryEscape arg
  | _ => "http://localhost:" ++ LOCAL_SERVER_PORT ++ FOCUS_ENDPOINT
  end.

(** ** The Primary's lifetime (updateActivity, monitorInactivity, main) *)

(** Times are nanoseconds, as Go's [time.Duration]. *)
Definition SECOND : Z := 1000000000.
Definition SHUTDOWN_TIMEOUT : Z := 60 * SECOND.
Definition MONITOR_INTERVAL : Z := 5 * SECOND.

Inductive proc_state :=
| Running (lastRequestTime : Z)
| Exited (code : Z).

Inductive proc_event :=
| Activity (t : Z)     (* any handler calls updateActivity at time t *)
| Tick (t : Z)         (* the monitor's ticker fires at time t *)
| ServeFailed.         (* server.Serve returns an error; main exits 1 *)

(** [server.Serve] only returns [http.ErrServerClosed] after a Shutdown or
    Close, which the program never calls; any return of Serve is a
    failure. *)
Definition proc_step (s : proc_state) (e : proc_event) : proc_state :=
  match s with
  | Exited c => Exited c
  | Running last =>
      match e with
      | Activity t => Running t
      | Tick t => if Z.gtb (t - last)%Z SHUTDOWN_TIMEOUT then Exited 0 else Running last
      | ServeFailed => Exited 1
      end
  end.

(** With no further activity: the ticks at [T0 + k * 5s], [k >= 1], for a
    ticker created at [T0]; the time of the tick at which the process
    exits. *)
Fixpoint idle_ticks (fuel : nat) (T0 : Z) (k : nat) (s : proc_state) : option Z :=
  match fuel with
  | O => None
  | S f =>
      let t := (T0 + MONITOR_INTERVAL * Z.of_nat k)%Z in
      match proc_step s (Tick t) with
      | Exited _ => Some t
      | s' => idle_ticks f T0 (S k) s'
      end
  end.

(** ** The directory-lookup and index-search handlers
    (src/unnamed/part_004 and src/unnamed/part_005) *)

(** An HTTP request: method, path, the URL's query pairs and the result of
    [r.ParseForm] ([None]: an error; otherwise [r.Form], body values first,
    then the URL's). *)
Record request := mkRequest {
  method : string;
  path : string;
  url_query : list (string * string);
  form : option (list (string * string))
}.

(** Connections the handlers open. *)
Inductive transport_call :=
| PHGreetingCall (h p : string)
| PHQueryCall (h p q : string)
| SearchCall (h p sel q : string).

Definition PH_DEFAULT_PORT : string := "105".

Definition ParsePHRoute (p : string) : result (string * string) :=
  let trimmed := TrimPrefix p "/ph/" in
  let parts := split_on ":" trimmed in
  if Nat.ltb (List.length parts) 1 then Err ("invalid PH route: " ++ p)
  else
    match parts with
    | h :: rest =>
        let prt := match rest with
                   | p1 :: _ => if String.eqb p1 "" then PH_DEFAULT_PORT else p1
                   | [] => PH_DEFAULT_PORT
                   end in
        Ok (h, prt)
    | [] => Err ("invalid PH route: " ++ p)
    end.

(** [bufio.Reader.ReadString('\n')] on the reply: the line with its
    newline, and what follows. *)
Fixpoint read_line (s : string) : option (string * string) :=
  match s with
  | EmptyString => None
  | String c r =>
      if Ascii.eqb c NL then Some (ch c, r)
      else match read_line r with
           | Some (l, rest) => Some (String c l, rest)
           | None => None
           end
  end.

Definition PHInitialGreeting (net : conn_script) (h p : string) : result string :=
  match dial_error net with
  | Some cause => Err ("PH connect failed: " ++ cause)
  | None =>
      match read_line (reply net) with
      | Some (greeting, _) => Ok (TrimSpace greeting)
      | None => Err ("PH read failed: " ++ read_end_text (reply_end net))
      end
  end.

(** [PHQuery]: read and drop the greeting, send the query, read until any
    error. *)
Definition PHQuery (net : conn_script) (h p q : string) : result string :=
  match dial_error net with
  | Some cause => Err cause
  | None =>
      match read_line (reply net) with
      | None => Err (read_end_text (reply_end net))
      | Some (_, rest) => Ok (TrimSpace rest)
      end
  end.

Definition SearchQuery (net : conn_script) (h p sel q : string) : result string :=
  match dial_error net with
  | Some cause => Err cause
  | None => Ok (TrimSpace (reply net))
  end.

(** The pages' templates, abbreviated to their interpolated values. *)
Definition formatPHPage (h p content returnURL : string) : string :=
  "<!DOCTYPE html><html><head><title>gofer PhClient - " ++ h ++ ":" ++ p
  ++ "</title></head><body><form method=" ++ dq ++ "POST" ++ dq ++ ">...</form><pre>"
  ++ content ++ "</pre><div class=" ++ dq ++ "return" ++ dq ++ "><a href=" ++ dq
  ++ returnURL ++ dq ++ ">Exit PhClient</a></div></body></html>".

Definition renderSearchFrame (innerHTML h p sel returnURL : string) : string :=
  "<!DOCTYPE html><html><head><title>gofer search - " ++ h ++ ":" ++ p
  ++ "</title></head><body><form method=" ++ dq ++ "POST" ++ dq ++ ">...</form><div class="
  ++ dq ++ "results" ++ dq ++ ">" ++ innerHTML ++ "</div><div class=" ++ dq ++ "return"
  ++ dq ++ "><a href=" ++ dq ++ returnURL ++ dq ++ ">Exit Search</a></div></body></html>".

Definition return_url (r : request) : string :=
  let u := query_get "return" (url_query r) in
  if String.eqb u "" then "/" else u.

Definition HandlePH (net : conn_script) (r : request) : response * list transport_call :=
  match ParsePHRoute (path r) with
  | Err e => (http_error 400 e, [])
  | Ok (h, p) =>
      let returnURL := return_url r in
      if String.eqb (method r) "POST" then
        match form r with
        | None => (http_error 400 "Invalid form data", [])
        | Some f =>
            let q := TrimSpace (query_get "query" f) in
            if String.eqb q "" then (http_error 400 "Empty query", [])
            else
              match PHQuery net h p q with
              | Err e => (http_error 502 e, [PHQueryCall h p q])
              | Ok res => (html_page (Some (formatPHPage h p res returnURL)),
                           [PHQueryCall h p q])
              end
        end
      else
        match PHInitialGreeting net h p with
        | Err e => (http_error 502 e, [PHGreetingCall h p])
        | Ok g => (html_page (Some (formatPHPage h p g returnURL)), [PHGreetingCall h p])
        end
  end.

Definition HandleSearch (net : conn_script) (r : request) : response * list transport_call :=
  let h := query_get "host" (url_query r) in
  let p := query_get "port" (url_query r) in
  let sel := query_get "selector" (url_query r) in
  if String.eqb h "" || String.eqb p "" || String.eqb sel "" then
    (http_error 400 "Missing host, port, or selector", [])
  else
    let returnURL := return_url r in
    if String.eqb (method r) "GET" then
      (html_page (Some (renderSearchFrame "" h p sel returnURL)), [])
    else if String.eqb (method r) "POST" then
      match form r with
      | None => (http_error 400 "Invalid form data", [])
      | Some f =>
          let q := TrimSpace (query_get "query" f) in
          if String.eqb q "" then (http_error 400 "Empty query", [])
          else
            match SearchQuery net h p sel q with
            | Err e => (http_error 502 e, [SearchCall h p sel q])
            | Ok rawMenu =>
                (html_page (option_map (fun menu => renderSearchFrame menu h p sel returnURL)
                                       (formatMenuHTML rawMenu h p sel true)),
                 [SearchCall h p sel q])
            end
      end
    else (http_error 405 "Method not allowed", []).

Definition malformed_record (currentHost currentPort line : string) : DirRecord :=
  mkRecord "3" (malformed_prefix ++ TrimSpace line) "/" currentHost currentPort.

Definition slow_server : conn_script :=
  mkConn None None ("1Partial" ++ tab ++ "/" ++ tab ++ "example.org" ++ tab ++ "70" ++ nl)
         ReadTimeout.

Definition refused : nat -> conn_script :=
  fun _ => mkConn (Some "connection refused") None "" ReadEOF.

(** ** The Primary's start-up URL (main, src/unnamed/part_003, lines 601-621) *)

Section Launch.

Variable url_parse : string -> option URL.

(** [initialGopherURL]: the page the Primary opens in the browser, from
    [os.Args]. *)
Definition initial_url (args : list string) : string :=
  let dflt := "http://localhost:" ++ LOCAL_SERVER_PORT ++ "/?host=" ++ DEFAULT_GOPHER_HOST
              ++ "&port=" ++ DEFAULT_GOPHER_PORT ++ "&selector=/" in
  match args with
  | _ :: gopherURI :: _ =>
      match url_parse gopherURI with
      | Some u =>
          if String.eqb (scheme u) "gopher" then
            let p := if String.eqb (uport u) "" then DEFAULT_GOPHER_PORT else uport u in
            "http://localhost:" ++ LOCAL_SERVER_PORT ++ "/?host=" ++ hostname u
            ++ "&port=" ++ p ++ "&selector=" ++ TrimPrefix (upath u) "/"
          else dflt
      | None => dflt
      end
  | _ => dflt
  end.

End Launch.

(** The path of a request target, what precedes its first '?'; it is
    [r.URL.Path] when the path holds no percent-escape. *)
Fixpoint request_path (target : string) : string :=
  match target with
  | EmptyString => EmptyString
  | String c r => if Ascii.eqb c "?" then EmptyString else String c (request_path r)
  end.

(** ** What a browser does with a URL before it sends the request *)

(** The prefix of [s] before the first [sep]. *)
Fixpoint cut_at (sep : ascii) (s : string) : string :=
  match s with
  | EmptyString => EmptyString
  | String c r => if Ascii.eqb c sep then EmptyString else String c (cut_at sep r)
  end.

(** C0 controls and space, which the URL parser strips at both ends. *)
Definition is_c0_space (c : ascii) : bool := Nat.leb (nat_of_ascii c) 32.

Fixpoint ltrim (s : string) : string :=
  match s with
  | EmptyString => EmptyString
  | String c r => if is_c0_space c then ltrim r else s
  end.

Fixpoint rtrim (s : string) : string :=
  match s with
  | EmptyString => EmptyString
  | String c r =>
      let r' := rtrim r in
      if String.eqb r' "" && is_c0_space c then EmptyString else String c r'
  end.

(** The URL parser removes every tab and newline. *)
Fixpoint remove_tab_nl (s : string) : string :=
  match s with
  | EmptyString => EmptyString
  | String c r =>
      if Ascii.eqb c TAB || Ascii.eqb c NL || Ascii.eqb c CR then remove_tab_nl r
      else String c (remove_tab_nl r)
  end.

(** The request target a browser derives from the value of an
    href attribute or from a URL it is given: the attribute value ends at
    the first double quote ([DQ]); the URL parser strips leading and trailing C0
    controls and spaces, removes tabs, line feeds and carriage returns, and
    keeps the fragment (from the first '#') to itself.  The percent-encoding
    it then applies to other ASCII bytes is undone by Go's decoding of
    [r.URL.Path] and [r.URL.Query()], so it is left out.  Not modelled, and
    excluded by the hypotheses of the theorems that use it: non-ASCII bytes,
    character references ('&' followed by a name) and, in the path, '.' and
    '..' segments and backslashes. *)
Definition browser_target (href : string) : string :=
  cut_at "#" (remove_tab_nl (ltrim (rtrim (cut_at DQ href)))).

(** Bytes a browser passes through [browser_target] unchanged: printable
    ASCII other than space, the double quote and '#'. *)
Definition verbatim_char (c : ascii) : bool :=
  Nat.leb 33 (nat_of_ascii c) && Nat.leb (nat_of_ascii c) 126
  && negb (Ascii.eqb c DQ) && negb (Ascii.eqb c "#").

Fixpoint verbatim (s : string) : bool :=
  match s with
  | EmptyString => true
  | String c r => verbatim_char c && verbatim r
  end.

(** The request a browser sends when it follows a link [href]: the path
    Go's [r.URL.Path] holds (when the path has no percent-escape), the
    query pairs of [r.URL.Query()] and the parsed form. *)
Definition follow (meth href : string) (frm : option (list (string * string))) : request :=
  let target := browser_target href in
  mkRequest meth (request_path target) (ParseQuery (raw_query target)) frm.

(** ** The Primary's lifetime over a sequence of events *)

Definition run (s : proc_state) (evs : list proc_event) : proc_state :=
  fold_left proc_step evs s.

(** The time of the last activity after the events, starting from [last]. *)
Definition last_activity (last : Z) (evs : list proc_event) : Z :=
  fold_left (fun l e => match e with Activity t => t | _ => l end) evs last.

(** The events hold no serve failure, and every tick comes at most
    [SHUTDOWN_TIMEOUT] after the last activity before it. *)
Fixpoint ticks_within (last : Z) (evs : list proc_event) : bool :=
  match evs with
  | [] => true
  | Activity t :: evs' => ticks_within t evs'
  | Tick t :: evs' => Z.leb (t - last) SHUTDOWN_TIMEOUT && ticks_within last evs'
  | ServeFailed :: _ => false
  end.

(** ** The line loop of [parseAndFormat] in src/gofer.go (lines 191-231) *)

Module LegacyMenu.

(** [None]: a panic; [Some None]: the line is skipped. *)
Definition parse_line (currentHost currentPort line : string) : option (option DirRecord) :=
  let trimmedline := TrimSpace line in
  if String.eqb trimmedline "" || String.eqb trimmedline "." then Some None
  else
    let fields := split_on TAB line in
    let extracted :=
      if Nat.ltb (List.length fields) 4 then
        Some ("3"%char, malformed_prefix ++ TrimSpace line, "/",
              currentHost, currentPort)
      else
        match fields with
        | f0 :: f1 :: f2 :: f3 :: _ =>
            match f0 with
            | EmptyString => None            (* index out of range *)
            | String t rest => Some (t, rest, f1, f2, f3)
            end
        | _ => None                          (* unreachable: len >= 4 *)
        end in
    match extracted with
    | None => None
    | Some (t, d, sel, h, p) =>
        let d' := TrimSpace d in
        if String.eqb d' "" then Some None else Some (Some (mkRecord t d' sel h p))
    end.

Fixpoint parse_lines (currentHost currentPort : string) (lines : list string)
  : option (list DirRecord) :=
  match lines with
  | [] => Some []
  | l :: ls =>
      match parse_line currentHost currentPort l with
      | None => None
      | Some None => parse_lines currentHost currentPort ls
      | Some (Some r) => option_map (cons r) (parse_lines currentHost currentPort ls)
      end
  end.

Definition parse_menu (raw currentHost currentPort : string) : option (list DirRecord) :=
  parse_lines currentHost currentPort (split_on NL raw).

End LegacyMenu.

(** Characters that [url.ParseQuery] treats specially in an unescaped
    parameter value. *)
Definition query_safe (s : string) : bool :=
  negb (contains_byte "&" s || contains_byte ";" s || contains_byte "%" s
        || contains_byte "+" s).

(** What every record [formatMenuHTML] renders satisfies. *)
Definition record_wf (currentHost currentPort : string) (r : DirRecord) : Prop :=
  display r <> "" /\
  ((itemType r = "3"%char /\ selector r = "/" /\ host r = currentHost /\ port r = currentPort) \/
   (contains_byte TAB (selector r) = false /\ contains_byte NL (selector r) = false /\
    contains_byte TAB (host r) = false /\ contains_byte NL (host r) = false /\
    contains_byte TAB (port r) = false /\ contains_byte NL (port r) = false)).

(** ** Lemmas on the string primitives *)

Lemma sapp_assoc : forall a b c : string, (a ++ b) ++ c = a ++ (b ++ c).
Proof. induction a; intros; simpl; [reflexivity | now rewrite IHa]. Qed.

Lemma sapp_nil_r : forall a : string, a ++ "" = a.
Proof. induction a; simpl; [reflexivity | now rewrite IHa]. Qed.

Lemma srev_app : forall a c : string, srev (a ++ c) = srev c ++ srev a.
Proof.
  induction a; intros; simpl.
  - now rewrite sapp_nil_r.
  - rewrite IHa. apply sapp_assoc.
Qed.

Lemma srev_involutive : forall s, srev (srev s) = s.
Proof. induction s; simpl; [reflexivity | now rewrite srev_app, IHs]. Qed.

Lemma srev_length : forall s, String.length (srev s) = String.length s.
Proof.
  induction s; simpl; [reflexivity|].
  assert (H : forall a c, String.length (a ++ c) = String.length a + String.length c)
    by (induction a0; simpl; auto).
  rewrite H, IHs. simpl. lia.
Qed.

Lemma strip_prefix_app : forall p s r, strip_prefix p s = Some r -> s = p ++ r.
Proof.
  induction p; intros s r H; simpl in H.
  - now inversion H.
  - destruct s; [discriminate|].
    destruct (Ascii.eqb a a0) eqn:E; [|discriminate].
    apply Ascii.eqb_eq in E; subst. simpl. f_equal. now apply IHp.
Qed.

Lemma first_strip_app : forall encs s r,
  first_strip encs s = Some r -> exists e, In e encs /\ s = e ++ r.
Proof.
  induction encs as [|e es IH]; intros s r H; simpl in H; [discriminate|].
  destruct (strip_prefix e s) eqn:E.
  - inversion H; subst. exists e. split; [left; auto | now apply strip_prefix_app].
  - destruct (IH _ _ H) as [e' [Hi He]]. exists e'. split; [right; auto | auto].
Qed.

Lemma strip_prefix_self : forall p r, strip_prefix p (p ++ r) = Some r.
Proof.
  induction p; intros; simpl; [reflexivity|].
  rewrite Ascii.eqb_refl. apply IHp.
Qed.

Lemma first_strip_none : forall encs e r,
  In e encs -> first_strip encs (e ++ r) <> None.
Proof.
  induction encs as [|e0 es IH]; intros e r Hin; [destruct Hin|].
  simpl. destruct (strip_prefix e0 (e ++ r)) eqn:E; [discriminate|].
  destruct Hin as [->|Hin].
  - now rewrite strip_prefix_self in E.
  - now apply IH.
Qed.

Lemma first_strip_empty : forall encs,
  Forall (fun e => e <> EmptyString) encs -> first_strip encs EmptyString = None.
Proof.
  induction encs as [|e es IH]; intros Hne; simpl; [reflexivity|].
  inversion Hne; subst. destruct e; [congruence|]. simpl. now apply IH.
Qed.

Lemma length_sapp : forall a c : string,
  String.length (a ++ c) = String.length a + String.length c.
Proof. induction a; intros; simpl; auto. Qed.

(** With enough fuel, trimming stops where no encoding is a prefix. *)
Lemma trim_fuel_stops : forall encs n s,
  Forall (fun e => e <> EmptyString) encs ->
  String.length s <= n ->
  first_strip encs (trim_fuel encs n s) = None.
Proof.
  intros encs n. induction n as [|n IH]; intros s Hne Hlen; simpl.
  - destruct s; [now apply first_strip_empty | simpl in Hlen; lia].
  - destruct (first_strip encs s) eqn:E; [|exact E].
    apply IH; [exact Hne|].
    destruct (first_strip_app _ _ _ E) as [e [Hin ->]].
    rewrite Forall_forall in Hne. specialize (Hne e Hin).
    rewrite length_sapp in Hlen. destruct e; [congruence|]. simpl in Hlen. lia.
Qed.

Lemma trim_prefixes_stops : forall encs s,
  Forall (fun e => e <> EmptyString) encs ->
  first_strip encs (trim_prefixes encs s) = None.
Proof. intros. apply trim_fuel_stops; auto. Qed.

Lemma trim_fuel_id : forall encs n s,
  first_strip encs s = None -> trim_fuel encs n s = s.
Proof. intros encs [|n] s H; simpl; [reflexivity | now rewrite H]. Qed.

Lemma white_space_nonempty :
  Forall (fun e => e <> EmptyString) (map srev white_space_utf8).
Proof. vm_compute. repeat constructor; discriminate. Qed.

(** A non-blank [TrimSpace] result ends in no space, tab or CR byte. *)
Lemma TrimSpace_last : forall s,
  TrimSpace s <> "" ->
  exists c y, srev (TrimSpace s) = String c y /\
              first_strip (map srev white_space_utf8) (String c y) = None.
Proof.
  intros s Hne.
  unfold TrimSpace, trim_suffixes. rewrite srev_involutive.
  set (Y := trim_prefixes (map srev white_space_utf8) _).
  assert (HY : first_strip (map srev white_space_utf8) Y = None)
    by (apply trim_prefixes_stops, white_space_nonempty).
  destruct Y as [|c y] eqn:EY.
  - exfalso. apply Hne. unfold TrimSpace, trim_suffixes. fold Y. now rewrite EY.
  - exists c, y. split; [reflexivity | exact HY].
Qed.

Lemma TrimRight_display_id : forall pre t,
  t <> "" ->
  (exists c y, srev t = String c y /\
               first_strip (map srev white_space_utf8) (String c y) = None) ->
  TrimRight (pre ++ t) display_cutset = pre ++ t.
Proof.
  intros pre t Hne [c [y [Ht Hnone]]].
  unfold TrimRight, trim_suffixes, trim_prefixes.
  rewrite trim_fuel_id.
  - now rewrite srev_involutive.
  - rewrite srev_app, Ht.
    replace (map srev (map ch (list_ascii_of_string display_cutset)))
      with [ch " "; tab; ch CR] by reflexivity.
    destruct (Ascii.eqb " " c) eqn:E1;
      [apply Ascii.eqb_eq in E1; subst c; vm_compute in Hnone; discriminate|].
    destruct (Ascii.eqb TAB c) eqn:E2;
      [apply Ascii.eqb_eq in E2; subst c; vm_compute in Hnone; discriminate|].
    destruct (Ascii.eqb CR c) eqn:E3;
      [apply Ascii.eqb_eq in E3; subst c; vm_compute in Hnone; discriminate|].
    cbn [first_strip strip_prefix append tab ch]. now rewrite E1, E2, E3.
Qed.

Lemma split_on_app : forall sep l r,
  contains_byte sep l = false ->
  split_on sep (l ++ String sep r) = l :: split_on sep r.
Proof.
  intros sep l r. induction l as [|c l IH]; intros H; simpl.
  - now rewrite Ascii.eqb_refl.
  - simpl in H. apply orb_false_iff in H as [H1 H2].
    rewrite Ascii.eqb_sym, H1, (IH H2). reflexivity.
Qed.

Lemma split_on_single : forall sep l,
  contains_byte sep l = false -> split_on sep l = [l].
Proof.
  intros sep l. induction l as [|c l IH]; intros H; simpl; [reflexivity|].
  simpl in H. apply orb_false_iff in H as [H1 H2].
  rewrite Ascii.eqb_sym, H1, (IH H2). reflexivity.
Qed.

Lemma parse_menu_line : forall currentHost currentPort l rest,
  contains_byte NL l = false ->
  parse_menu (l ++ nl ++ rest) currentHost currentPort
  = match parse_line currentHost currentPort l with
    | LSkip => parse_menu rest currentHost currentPort
    | LStop => Some []
    | LPanic => None
    | LEmit r => option_map (cons r) (parse_menu rest currentHost currentPort)
    end.
Proof.
  intros. unfold parse_menu. change (l ++ nl ++ rest) with (l ++ String NL rest).
  rewrite split_on_app by assumption. reflexivity.
Qed.

Lemma parse_menu_single : forall currentHost currentPort l,
  contains_byte NL l = false ->
  parse_menu l currentHost currentPort
  = match parse_line currentHost currentPort l with
    | LSkip => Some []
    | LStop => Some []
    | LPanic => None
    | LEmit r => Some [r]
    end.
Proof.
  intros. unfold parse_menu. rewrite split_on_single by assumption. simpl.
  destruct (parse_line _ _ l); reflexivity.
Qed.

Lemma malformed_prefix_nonempty : forall t, String.eqb (malformed_prefix ++ t) "" = false.
Proof. reflexivity. Qed.

(** The synthetic record of a malformed line. *)
Lemma parse_line_malformed : forall currentHost currentPort l,
  TrimSpace l <> "" -> TrimSpace l <> "." ->
  List.length (split_on TAB l) < 4 ->
  parse_line currentHost currentPort l = LEmit (malformed_record currentHost currentPort l).
Proof.
  intros currentHost currentPort l Hb Hd Hf.
  pose proof (TrimRight_display_id malformed_prefix _ Hb (TrimSpace_last _ Hb)) as Hid.
  unfold parse_line.
  apply String.eqb_neq in Hb, Hd. rewrite Hb, Hd.
  apply Nat.ltb_lt in Hf. rewrite Hf.
  rewrite Hid, malformed_prefix_nonempty. reflexivity.
Qed.

Lemma parse_line_well_formed : forall currentHost currentPort l t rest0 f1 f2 f3 more,
  split_on TAB l = String t rest0 :: f1 :: f2 :: f3 :: more ->
  TrimSpace l <> "" -> TrimSpace l <> "." ->
  TrimRight rest0 display_cutset <> "" ->
  parse_line currentHost currentPort l
  = LEmit (mkRecord t (TrimRight rest0 display_cutset) f1 f2 f3).
Proof.
  intros currentHost currentPort l t rest0 f1 f2 f3 more Hs Hb Hd He.
  unfold parse_line.
  apply String.eqb_neq in Hb, Hd, He. rewrite Hb, Hd, Hs. simpl.
  now rewrite He.
Qed.

Lemma contains_byte_app : forall c a d,
  contains_byte c (a ++ d) = contains_byte c a || contains_byte c d.
Proof.
  induction a; intros; simpl; [reflexivity|]. rewrite IHa. apply orb_assoc.
Qed.

(** A byte that occurs in none of the encodings survives trimming at the
    other end. *)
Lemma app_ch_decomp : forall e r x c,
  contains_byte c e = false -> x ++ ch c = e ++ r ->
  exists x', r = x' ++ ch c.
Proof.
  induction e as [|a e IH]; intros r x c Hc Heq; simpl in *.
  - exists x. now symmetry.
  - apply orb_false_iff in Hc as [Hca Hce].
    destruct x as [|x0 x]; simpl in Heq.
    + inversion Heq; subst. now rewrite Ascii.eqb_refl in Hca.
    + inversion Heq; subst. eapply IH; eauto.
Qed.

Lemma trim_fuel_keeps_last : forall encs n x c,
  forallb (fun e => negb (contains_byte c e)) encs = true ->
  exists y, trim_fuel encs n (x ++ ch c) = y ++ ch c.
Proof.
  intros encs n. induction n as [|n IH]; intros x c Hc; simpl.
  - eauto.
  - destruct (first_strip encs (x ++ ch c)) eqn:E; [|eauto].
    destruct (first_strip_app _ _ _ E) as [e [Hin He]].
    pose proof Hc as Hall.
    rewrite forallb_forall in Hc. specialize (Hc e Hin). apply negb_true_iff in Hc.
    destruct (app_ch_decomp _ _ _ _ Hc He) as [x' ->].
    now apply IH.
Qed.

Lemma trim_suffixes_keeps_head : forall encs c r,
  forallb (fun e => negb (contains_byte c e)) (map srev encs) = true ->
  exists y, trim_suffixes encs (String c r) = String c y.
Proof.
  intros encs c r Hc. unfold trim_suffixes, trim_prefixes. simpl.
  destruct (trim_fuel_keeps_last (map srev encs) (String.length (srev r ++ ch c)) (srev r) c Hc)
    as [y Hy].
  rewrite Hy, srev_app. simpl. eauto.
Qed.

Lemma TrimSpace_keeps_head : forall c r,
  first_strip white_space_utf8 (String c r) = None ->
  forallb (fun e => negb (contains_byte c e)) (map srev white_space_utf8) = true ->
  exists y, TrimSpace (String c r) = String c y.
Proof.
  intros c r H1 H2. unfold TrimSpace, trim_prefixes.
  rewrite trim_fuel_id by exact H1. now apply trim_suffixes_keeps_head.
Qed.

(** ** Query escaping round trip *)

Lemma unhex_hex_digit : forall d, d < 16 -> unhex (hex_digit d) = Some d.
Proof.
  intros d Hd.
  do 16 (destruct d as [|d]; [reflexivity|]). lia.
Qed.

Lemma unreserved_not_special : forall c,
  is_unreserved c = true -> Ascii.eqb c "%" = false /\ Ascii.eqb c "+" = false.
Proof.
  intros c Hc. split.
  - destruct (Ascii.eqb c "%") eqn:E; [|reflexivity].
    apply Ascii.eqb_eq in E. subst. discriminate.
  - destruct (Ascii.eqb c "+") eqn:E; [|reflexivity].
    apply Ascii.eqb_eq in E. subst. discriminate.
Qed.

Lemma QueryUnescape_pct : forall h1 h2 r,
  QueryUnescape (String "%" (String h1 (String h2 r)))
  = match unhex h1, unhex h2, QueryUnescape r with
    | Some x, Some y, Some u => Some (String (ascii_of_nat (x * 16 + y)) u)
    | _, _, _ => None
    end.
Proof. reflexivity. Qed.

Lemma QueryUnescape_QueryEscape : forall s, QueryUnescape (QueryEscape s) = Some s.
Proof.
  induction s as [|c s IH]; [reflexivity|].
  cbn [QueryEscape].
  destruct (is_unreserved c) eqn:Hu.
  - destruct (unreserved_not_special c Hu) as [H1 H2].
    simpl. rewrite H1, H2, IH. reflexivity.
  - destruct (Ascii.eqb c " ") eqn:Hs.
    + apply Ascii.eqb_eq in Hs. subst. simpl. rewrite IH. reflexivity.
    + assert (Hn : nat_of_ascii c < 256) by apply nat_ascii_bounded.
      assert (Hq : nat_of_ascii c / 16 < 16) by (apply Nat.Div0.div_lt_upper_bound; lia).
      assert (Hr : nat_of_ascii c mod 16 < 16) by (apply Nat.mod_upper_bound; lia).
      assert (Hdm : nat_of_ascii c = nat_of_ascii c / 16 * 16 + nat_of_ascii c mod 16)
        by (rewrite Nat.mul_comm; apply Nat.div_mod; lia).
      remember (nat_of_ascii c / 16) as q. remember (nat_of_ascii c mod 16) as m.
      cbv beta iota.
      change (String "%" (String (hex_digit q) (ch (hex_digit m))) ++ QueryEscape s)
        with (String "%" (String (hex_digit q) (String (hex_digit m) (QueryEscape s)))).
      rewrite QueryUnescape_pct, !unhex_hex_digit, IH by assumption.
      rewrite <- Hdm, ascii_nat_embedding. reflexivity.
Qed.

Lemma QueryUnescape_plain : forall s,
  contains_byte "%" s = false -> contains_byte "+" s = false ->
  QueryUnescape s = Some s.
Proof.
  induction s as [|c s IH]; intros H1 H2; [reflexivity|].
  cbn [contains_byte] in H1, H2. apply orb_false_iff in H1 as [H1a H1b].
  apply orb_false_iff in H2 as [H2a H2b].
  cbn [QueryUnescape].
  rewrite (Ascii.eqb_sym c "%"), H1a, (Ascii.eqb_sym c "+"), H2a, IH by assumption.
  reflexivity.
Qed.

Lemma contains_QueryEscape : forall c s,
  is_unreserved c = false -> Ascii.eqb c "+" = false -> Ascii.eqb c "%" = false ->
  contains_byte c (QueryEscape s) = false.
Proof.
  intros c s Hu Hp Hpc. induction s as [|d s IH]; [reflexivity|].
  cbn [QueryEscape]. rewrite contains_byte_app, IH, orb_false_r.
  destruct (is_unreserved d) eqn:Hd.
  - simpl. rewrite orb_false_r.
    destruct (Ascii.eqb c d) eqn:E; [|reflexivity].
    apply Ascii.eqb_eq in E. subst. congruence.
  - destruct (Ascii.eqb d " "); simpl; [now rewrite Hp|].
    rewrite orb_false_r.
    assert (Hh : forall k, Ascii.eqb c (hex_digit k) = false).
    { intros k. destruct (Ascii.eqb c (hex_digit k)) eqn:E; [|reflexivity].
      apply Ascii.eqb_eq in E. subst c.
      unfold hex_digit in Hu.
      do 16 (destruct k as [|k]; [discriminate|]). discriminate. }
    rewrite !Hh, Hpc. reflexivity.
Qed.

(** ** Claims on the directory parser *)

(** C1: a line of the reply that is neither blank nor the lone "." after
    trimming and has fewer than four tab-separated fields yields exactly one
    record, of type '3', whose display is the diagnostic prefix followed by
    the trimmed line, whose selector is "/" and whose host and port are the
    calling context's; it takes that record's place among the records of
    the rest of the reply. *)
Theorem malformed_line_yields_synthetic_record :
  forall currentHost currentPort l rest,
  contains_byte NL l = false ->
  TrimSpace l <> "" -> TrimSpace l <> "." ->
  List.length (split_on TAB l) < 4 ->
  let r := malformed_record currentHost currentPort l in
  itemType r = "3"%char /\ display r = malformed_prefix ++ TrimSpace l /\
  selector r = "/" /\ host r = currentHost /\ port r = currentPort /\
  parse_menu l currentHost currentPort = Some [r] /\
  parse_menu (l ++ nl ++ rest) currentHost currentPort
  = option_map (cons r) (parse_menu rest currentHost currentPort).
Proof.
  intros currentHost currentPort l rest Hnl Hb Hd Hf r.
  pose proof (parse_line_malformed currentHost currentPort l Hb Hd Hf) as Hl.
  repeat split; try reflexivity.
  - now rewrite parse_menu_single, Hl.
  - now rewrite parse_menu_line, Hl.
Qed.

Lemma malformed_line_witness :
  let l := "badline" in
  contains_byte NL l = false /\ TrimSpace l <> "" /\ TrimSpace l <> "." /\
  List.length (split_on TAB l) < 4 /\
  parse_menu (l ++ nl ++ "") "h" "p" = Some [malformed_record "h" "p" l].
Proof.
  simpl.
  assert (H1 : contains_byte NL "badline" = false) by reflexivity.
  assert (H2 : TrimSpace "badline" <> "") by (vm_compute; discriminate).
  assert (H3 : TrimSpace "badline" <> ".") by (vm_compute; discriminate).
  assert (H4 : List.length (split_on TAB "badline") < 4) by (vm_compute; lia).
  destruct (malformed_line_yields_synthetic_record "h" "p" "badline" "" H1 H2 H3 H4)
    as [_ [_ [_ [_ [_ [_ H]]]]]].
  exact (conj H1 (conj H2 (conj H3 (conj H4 H)))).
Defined.

Lemma parse_line_empty_display : forall currentHost currentPort l t rest0 f1 f2 f3 more,
  split_on TAB l = String t rest0 :: f1 :: f2 :: f3 :: more ->
  TrimSpace l <> "" -> TrimSpace l <> "." ->
  TrimRight rest0 display_cutset = "" ->
  parse_line currentHost currentPort l = LSkip.
Proof.
  intros currentHost currentPort l t rest0 f1 f2 f3 more Hs Hb Hd He.
  unfold parse_line.
  apply String.eqb_neq in Hb, Hd. rewrite Hb, Hd, Hs. simpl.
  now rewrite He.
Qed.

(** C3 (as amended): a line with at least four tab-separated fields whose
    first field is non-empty, that is neither blank nor the lone "." after
    trimming, and whose display (the first field after its first byte, with
    trailing spaces, tabs and CRs removed) is non-empty yields exactly one
    record: type the first byte, that trimmed display, and the second, third
    and fourth fields as selector, host and port; when that display is
    empty the line yields no record and parsing goes on with the next line.
    In particular the scenario reply "1A Directory\t/sub\texample.org\t70\n.\n"
    yields the single record {'1', "A Directory", "/sub", "example.org", "70"}. *)
Theorem well_formed_line_yields_record :
  (forall currentHost currentPort l rest t rest0 f1 f2 f3 more,
   contains_byte NL l = false ->
   split_on TAB l = String t rest0 :: f1 :: f2 :: f3 :: more ->
   TrimSpace l <> "" -> TrimSpace l <> "." ->
   TrimRight rest0 display_cutset <> "" ->
   let r := mkRecord t (TrimRight rest0 display_cutset) f1 f2 f3 in
   parse_menu l currentHost currentPort = Some [r] /\
   parse_menu (l ++ nl ++ rest) currentHost currentPort
   = option_map (cons r) (parse_menu rest currentHost currentPort)) /\
  (forall currentHost currentPort l rest t rest0 f1 f2 f3 more,
   contains_byte NL l = false ->
   split_on TAB l = String t rest0 :: f1 :: f2 :: f3 :: more ->
   TrimSpace l <> "" -> TrimSpace l <> "." ->
   TrimRight rest0 display_cutset = "" ->
   parse_menu l currentHost currentPort = Some [] /\
   parse_menu (l ++ nl ++ rest) currentHost currentPort
   = parse_menu rest currentHost currentPort) /\
  parse_menu ("1A Directory" ++ tab ++ "/sub" ++ tab ++ "example.org" ++ tab ++ "70"
              ++ nl ++ "." ++ nl) "example.org" "70"
  = Some [mkRecord "1" "A Directory" "/sub" "example.org" "70"].
Proof.
  split; [|split].
  - intros currentHost currentPort l rest t rest0 f1 f2 f3 more Hnl Hs Hb Hd He r.
    pose proof (parse_line_well_formed currentHost currentPort l t rest0 f1 f2 f3 more
                  Hs Hb Hd He) as Hl.
    split.
    + now rewrite parse_menu_single, Hl.
    + now rewrite parse_menu_line, Hl.
  - intros currentHost currentPort l rest t rest0 f1 f2 f3 more Hnl Hs Hb Hd He.
    pose proof (parse_line_empty_display currentHost currentPort l t rest0 f1 f2 f3 more
                  Hs Hb Hd He) as Hl.
    split.
    + now rewrite parse_menu_single, Hl.
    + now rewrite parse_menu_line, Hl.
  - vm_compute. reflexivity.
Qed.

Lemma well_formed_line_witness :
  let l := "0About" ++ tab ++ "/about.txt" ++ tab ++ "example.org" ++ tab ++ "70" in
  let l' := "i " ++ ch CR ++ tab ++ tab ++ "example.org" ++ tab ++ "70" in
  parse_menu l "example.org" "70"
  = Some [mkRecord "0" "About" "/about.txt" "example.org" "70"] /\
  parse_menu (l' ++ nl ++ l) "example.org" "70" = parse_menu l "example.org" "70".
Proof.
  destruct well_formed_line_yields_record as [H [H' _]]. split.
  - refine (proj1 (H "example.org" "70" _ "" "0"%char "About" "/about.txt" "example.org" "70" []
                     _ _ _ _ _)).
    + reflexivity.
    + vm_compute. reflexivity.
    + vm_compute. discriminate.
    + vm_compute. discriminate.
    + vm_compute. discriminate.
  - refine (proj2 (H' "example.org" "70" _ _ "i"%char (" " ++ ch CR) "" "example.org" "70" []
                     _ _ _ _ _)).
    + reflexivity.
    + vm_compute. reflexivity.
    + vm_compute. discriminate.
    + vm_compute. discriminate.
    + vm_compute. reflexivity.
Defined.

(** C3 fails as stated: the display loses its trailing blanks, and a line
    whose display is empty after that trimming yields no record at all. *)
Lemma well_formed_line_counterexample :
  parse_menu ("1A Directory " ++ tab ++ "/sub" ++ tab ++ "example.org" ++ tab ++ "70")
    "example.org" "70"
  = Some [mkRecord "1" "A Directory" "/sub" "example.org" "70"] /\
  "A Directory" <> "A Directory " /\
  parse_menu ("i" ++ tab ++ tab ++ "example.org" ++ tab ++ "70") "example.org" "70"
  = Some [].
Proof.
  split; [vm_compute; reflexivity|]. split; [discriminate|]. vm_compute. reflexivity.
Qed.

(** C10: [formatMenuHTML] is not total: a line of four fields whose first
    field is empty (it starts with a tab) makes [fields[0][0]] index out of
    range, and the handler panics. *)
Theorem formatMenuHTML_panics_on_empty_first_field :
  let raw := tab ++ "/sel" ++ tab ++ "example.org" ++ tab ++ "70" ++ nl ++ "." ++ nl in
  parse_line "example.org" "70" (tab ++ "/sel" ++ tab ++ "example.org" ++ tab ++ "70")
  = LPanic /\
  formatMenuHTML raw "example.org" "70" "/" false = None /\
  formatMenuHTML raw "example.org" "70" "/" true = None.
Proof. vm_compute. repeat split. Qed.

(** ** Claims on the transport *)

(** C2 (as amended): once connected and the request written, the current
    transport reports a read-deadline expiry as the error "socket timeout
    while reading from host:port" and drops the bytes read, and any other
    read error as "error reading from socket: <cause>"; only the peer's
    close yields the collected bytes: a successful fetch always ended in
    EOF after a dial and a write that did not fail.  The earlier variant in
    gofer.go returned the collected bytes on a deadline expiry. *)
Theorem transport_timeout_is_error :
  forall net h p sel,
  (dial_error net = None -> write_error net = None ->
   (reply_end net = ReadTimeout ->
    gopherRequestBytes net h p sel
    = Err ("socket timeout while reading from " ++ JoinHostPort h p) /\
    gopherRequest net h p sel = Err ("socket timeout while reading from " ++ JoinHostPort h p) /\
    Legacy.gopherRequest net h p sel = Ok (reply net)) /\
   (forall cause, reply_end net = ReadError cause ->
    gopherRequestBytes net h p sel = Err ("error reading from socket: " ++ cause) /\
    gopherRequest net h p sel = Err ("error reading from socket: " ++ cause)) /\
   (reply_end net = ReadEOF ->
    gopherRequestBytes net h p sel = Ok (reply net) /\
    gopherRequest net h p sel = Ok (reply net))) /\
  (forall x, (gopherRequestBytes net h p sel = Ok x \/ gopherRequest net h p sel = Ok x) ->
   dial_error net = None /\ write_error net = None /\ reply_end net = ReadEOF /\
   x = reply net).
Proof.
  intros net h p sel. split.
  - intros Hd Hw. unfold gopherRequest, gopherRequestBytes, Legacy.gopherRequest.
    rewrite Hd, Hw. split; [|split]; intros; subst; match goal with
      | H : reply_end net = _ |- _ => rewrite H end; auto.
  - intros x Hx.
    assert (Hb : gopherRequestBytes net h p sel = Ok x).
    { destruct Hx as [Hx|Hx]; [exact Hx|].
      unfold gopherRequest in Hx. destruct (gopherRequestBytes net h p sel);
        [exact Hx | discriminate]. }
    unfold gopherRequestBytes in Hb.
    destruct (dial_error net); [discriminate|].
    destruct (write_error net); [discriminate|].
    destruct (reply_end net); try discriminate.
    injection Hb as <-. auto.
Qed.

Lemma transport_timeout_witness :
  gopherRequest slow_server "example.org" "70" "/"
  = Err "socket timeout while reading from example.org:70" /\
  gopherRequest (mkConn None None "x" (ReadError "connection reset by peer"))
    "example.org" "70" "/" = Err "error reading from socket: connection reset by peer" /\
  reply_end (mkConn None None "x" ReadEOF) = ReadEOF.
Proof.
  split; [|split].
  - destruct (proj1 (transport_timeout_is_error slow_server "example.org" "70" "/")
                eq_refl eq_refl) as [H _].
    exact (proj1 (proj2 (H eq_refl))).
  - destruct (proj1 (transport_timeout_is_error
                       (mkConn None None "x" (ReadError "connection reset by peer"))
                       "example.org" "70" "/") eq_refl eq_refl) as [_ [H _]].
    exact (proj2 (H _ eq_refl)).
  - apply (proj2 (transport_timeout_is_error (mkConn None None "x" ReadEOF)
                    "example.org" "70" "/") "x").
    left. reflexivity.
Defined.

Lemma transport_timeout_counterexample :
  gopherRequestBytes slow_server "example.org" "70" "/" <> Ok (reply slow_server) /\
  gopherRequest slow_server "example.org" "70" "/" <> Ok (reply slow_server).
Proof. vm_compute. split; discriminate. Qed.

(** ** Claims on the navigation handler *)

Lemma connection_failed_listing_parse : forall e h p,
  contains_byte TAB e = false -> contains_byte NL e = false ->
  contains_byte TAB h = false -> contains_byte NL h = false ->
  contains_byte TAB p = false -> contains_byte NL p = false ->
  parse_menu (connection_failed_listing e h p) h p
  = Some [mkRecord "3" (TrimRight ("Connection failed: " ++ e) display_cutset) "/" h p].
Proof.
  intros e h p He1 He2 Hh1 Hh2 Hp1 Hp2.
  set (L1 := ("3Connection failed: " ++ e) ++ String TAB ("/" ++ String TAB (h ++ String TAB p))).
  assert (Heq : connection_failed_listing e h p = L1 ++ nl ++ ("." ++ nl)).
  { unfold connection_failed_listing, L1.
    repeat (rewrite !sapp_assoc; cbn [append]). reflexivity. }
  assert (Hnl : contains_byte NL L1 = false).
  { unfold L1. repeat progress (rewrite ?contains_byte_app; cbn [contains_byte]).
    rewrite He2, Hh2, Hp2. reflexivity. }
  assert (Hs : split_on TAB L1
               = [String "3" ("Connection failed: " ++ e); "/"; h; p]).
  { unfold L1.
    rewrite split_on_app by (rewrite contains_byte_app; now rewrite He1).
    rewrite (split_on_app TAB "/") by reflexivity.
    rewrite split_on_app by assumption.
    rewrite split_on_single by assumption. reflexivity. }
  assert (Ht : exists y, TrimSpace L1 = String "3" y).
  { apply TrimSpace_keeps_head; vm_compute; reflexivity. }
  assert (Hd : exists y, TrimRight ("Connection failed: " ++ e) display_cutset = String "C" y).
  { apply trim_suffixes_keeps_head. vm_compute. reflexivity. }
  destruct Ht as [y Ht]. destruct Hd as [y' Hd].
  rewrite Heq, parse_menu_line by exact Hnl.
  rewrite (parse_line_well_formed h p L1 "3" _ "/" h p [] Hs).
  - reflexivity.
  - rewrite Ht. discriminate.
  - rewrite Ht. discriminate.
  - rewrite Hd. discriminate.
Qed.

(** When a transport call of the navigation handler fails with error [e]
    and neither [e] nor the requested host and port contain a tab or a
    newline, the response is the full page rendered under the
    requested host, port and selector whose only record is the type-'3'
    record "Connection failed: <e>" with selector "/" and the requested host
    and port. *)
Theorem fetch_failure_renders_one_error_record :
  forall url_parse DetectContentType net q t h p sel e,
  serve_target url_parse q = (t, h, p, sel) ->
  (gopherRequest (net 0%nat) h p sel = Err e \/
   (exists s0, gopherRequest (net 0%nat) h p sel = Ok s0 /\
               gopherRequestBytes (net 1%nat) h p sel = Err e)) ->
  contains_byte TAB e = false -> contains_byte NL e = false ->
  contains_byte TAB h = false -> contains_byte NL h = false ->
  contains_byte TAB p = false -> contains_byte NL p = false ->
  let r := mkRecord "3" (TrimRight ("Connection failed: " ++ e) display_cutset) "/" h p in
  serveGopher url_parse DetectContentType net q
  = html_page (Some (page_head h p sel (h ++ ":" ++ p ++ sel)
                     ++ render_record h p sel r ++ heartbeat_script ++ "</body></html>")).
Proof.
  intros url_parse DetectContentType net q t h p sel e Hq Hf He1 He2 Hh1 Hh2 Hp1 Hp2 r.
  assert (Hpage : connection_failed_page e h p sel
                  = html_page (Some (page_head h p sel (h ++ ":" ++ p ++ sel)
                     ++ render_record h p sel r ++ heartbeat_script ++ "</body></html>"))).
  { unfold connection_failed_page, formatMenuHTML.
    rewrite connection_failed_listing_parse by assumption. reflexivity. }
  unfold serveGopher. rewrite Hq.
  destruct Hf as [H0 | [s0 [H0 H1]]]; rewrite H0; [exact Hpage|].
  assert (H1' : gopherRequest (net 1%nat) h p sel = Err e)
    by (unfold gopherRequest; now rewrite H1).
  destruct (isTransparentType _); rewrite ?H1', ?H1; exact Hpage.
Qed.

Lemma fetch_failure_witness :
  let net := fun _ : nat => mkConn (Some "connection refused") None "" ReadEOF in
  let e := "failed to connect to Gopher server example.org:70: connection refused" in
  serveGopher (fun _ => None) (fun _ => "") net [("host", "example.org"); ("port", "70")]
  = html_page (Some (page_head "example.org" "70" "/" "example.org:70/"
                     ++ render_record "example.org" "70" "/"
                          (mkRecord "3" (TrimRight ("Connection failed: " ++ e) display_cutset)
                                    "/" "example.org" "70")
                     ++ heartbeat_script ++ "</body></html>")).
Proof.
  apply (fetch_failure_renders_one_error_record _ _ _ _ "" "example.org" "70" "/").
  - reflexivity.
  - left. reflexivity.
  - reflexivity.
  - reflexivity.
  - reflexivity.
  - reflexivity.
  - reflexivity.
  - reflexivity.
Defined.

(** C4 does not hold: the synthetic listing embeds the requested host
    unescaped. A host (the URL-decoded 'host' parameter) holding a newline
    followed by a tab and three more tab-separated fields makes a line of
    that listing begin with a tab, and formatMenuHTML panics on it: the
    handler writes no page at all. A host holding only a newline splits the
    synthetic line, and the page shows three records instead of one. *)
Theorem fetch_failure_listing_breaks_on_host :
  forall url_parse DetectContentType,
  (let h := "a" ++ nl ++ tab ++ "x" ++ tab ++ "y" ++ tab ++ "z" in
   let e := "failed to connect to Gopher server " ++ h ++ ":70: connection refused" in
   gopherRequest (refused 0%nat) h "70" "/" = Err e /\
   serveGopher url_parse DetectContentType refused [("host", h)]
   = connection_failed_page e h "70" "/" /\
   body (serveGopher url_parse DetectContentType refused [("host", h)]) = None) /\
  (let h := "a" ++ nl ++ "b" in
   let e := "failed to connect to Gopher server " ++ h ++ ":70: connection refused" in
   serveGopher url_parse DetectContentType refused [("host", h)]
   = connection_failed_page e h "70" "/" /\
   option_map (@List.length DirRecord) (parse_menu (connection_failed_listing e h "70") h "70")
   = Some 3%nat).
Proof.
  intros url_parse DetectContentType. vm_compute.
  split; [split; [reflexivity | split; reflexivity] | split; reflexivity].
Qed.

(** ** Claims on the Primary's lifetime *)

Lemma idle_ticks_window : forall n k T0 last,
  (1 <= k)%nat ->
  (T0 + MONITOR_INTERVAL * (Z.of_nat k - 1) <= last + SHUTDOWN_TIMEOUT)%Z ->
  (last + SHUTDOWN_TIMEOUT < T0 + MONITOR_INTERVAL * (Z.of_nat k + Z.of_nat n - 1))%Z ->
  exists e, idle_ticks n T0 k (Running last) = Some e /\
            (last + SHUTDOWN_TIMEOUT < e <= last + SHUTDOWN_TIMEOUT + MONITOR_INTERVAL)%Z.
Proof.
  induction n as [|n IH]; intros k T0 last Hk Hinv Hmeas.
  - exfalso. unfold MONITOR_INTERVAL, SHUTDOWN_TIMEOUT, SECOND in *. lia.
  - cbn [idle_ticks proc_step]. destruct (Z.gtb _ _) eqn:E.
    + apply Z.gtb_lt in E. eexists. split; [reflexivity|].
      unfold MONITOR_INTERVAL, SHUTDOWN_TIMEOUT, SECOND in *. lia.
    + rewrite Z.gtb_ltb in E. apply Z.ltb_ge in E.
      apply IH; rewrite ?Nat2Z.inj_succ in *;
        unfold MONITOR_INTERVAL, SHUTDOWN_TIMEOUT, SECOND in *; lia.
Qed.

Lemma idle_ticks_S : forall n T0 k s,
  idle_ticks (S n) T0 k s =
  match proc_step s (Tick (T0 + MONITOR_INTERVAL * Z.of_nat k)%Z) with
  | Exited _ => Some (T0 + MONITOR_INTERVAL * Z.of_nat k)%Z
  | s' => idle_ticks n T0 (S k) s'
  end.
Proof. reflexivity. Qed.

Lemma idle_ticks_exit : forall n k T0 last e,
  (1 <= k)%nat ->
  (T0 + MONITOR_INTERVAL * (Z.of_nat k - 1) <= last + SHUTDOWN_TIMEOUT)%Z ->
  idle_ticks n T0 k (Running last) = Some e ->
  exists m, e = (T0 + MONITOR_INTERVAL * m)%Z /\
            (last + SHUTDOWN_TIMEOUT < e <= last + SHUTDOWN_TIMEOUT + MONITOR_INTERVAL)%Z.
Proof.
  induction n as [|n IH]; intros k T0 last e Hk Hinv H.
  - discriminate.
  - rewrite idle_ticks_S in H. unfold proc_step in H. destruct (Z.gtb _ _) eqn:E.
    + apply Z.gtb_lt in E.
      assert (e = T0 + MONITOR_INTERVAL * Z.of_nat k)%Z as -> by congruence.
      exists (Z.of_nat k). split; [reflexivity|].
      unfold MONITOR_INTERVAL, SHUTDOWN_TIMEOUT, SECOND in *. lia.
    + rewrite Z.gtb_ltb in E. apply Z.ltb_ge in E.
      apply (IH (S k)); [lia | | exact H].
      rewrite Nat2Z.inj_succ. unfold MONITOR_INTERVAL, SHUTDOWN_TIMEOUT, SECOND in *. lia.
Qed.

(** C5 (as amended): with no further activity after the last one at
    [last], and the monitor's ticker started (at [T0]) no later than 60s
    after it, the process exits at a tick strictly more than 60s and at most
    65s after [last]; every such exit lies in that window, and it is
    exactly 65s after [last] if and only if the ticks fall on multiples of
    5s after [last]. The Primary's only exits are that one (status 0) and
    the exit with status 1 when the HTTP serve loop returns. *)
Theorem idle_shutdown_window :
  (forall T0 last,
   (T0 <= last + SHUTDOWN_TIMEOUT)%Z ->
   exists n e, idle_ticks n T0 1 (Running last) = Some e /\
     (last + SHUTDOWN_TIMEOUT < e <= last + SHUTDOWN_TIMEOUT + MONITOR_INTERVAL)%Z) /\
  (forall T0 last n e,
   (T0 <= last + SHUTDOWN_TIMEOUT)%Z ->
   idle_ticks n T0 1 (Running last) = Some e ->
   (last + SHUTDOWN_TIMEOUT < e <= last + SHUTDOWN_TIMEOUT + MONITOR_INTERVAL)%Z /\
   (e = last + SHUTDOWN_TIMEOUT + MONITOR_INTERVAL <-> (T0 - last) mod MONITOR_INTERVAL = 0)%Z) /\
  (forall last ev c,
   proc_step (Running last) ev = Exited c ->
   (exists t, ev = Tick t /\ (t - last > SHUTDOWN_TIMEOUT)%Z /\ c = 0%Z) \/
   (ev = ServeFailed /\ c = 1%Z)).
Proof.
  split; [|split].
  - intros T0 last H.
    exists (Z.to_nat (last + SHUTDOWN_TIMEOUT - T0 + 1)).
    apply idle_ticks_window; [lia | simpl; lia |].
    rewrite Z2Nat.id by lia. unfold MONITOR_INTERVAL, SHUTDOWN_TIMEOUT, SECOND in *. lia.
  - intros T0 last n e H He.
    destruct (idle_ticks_exit n 1 T0 last e) as [m [-> Hw]]; [lia | simpl; lia | exact He |].
    split; [exact Hw|].
    split.
    + intros Heq.
      replace (T0 - last)%Z with (MONITOR_INTERVAL * (13 - m))%Z
        by (unfold MONITOR_INTERVAL, SHUTDOWN_TIMEOUT, SECOND in *; lia).
      rewrite Z.mul_comm. apply Z.mod_mul. unfold MONITOR_INTERVAL, SECOND. lia.
    + intros Hm.
      pose proof (Z.div_mod (T0 - last) MONITOR_INTERVAL) as Hd.
      rewrite Hm in Hd.
      assert (MONITOR_INTERVAL <> 0)%Z as Hnz by (unfold MONITOR_INTERVAL, SECOND; lia).
      specialize (Hd Hnz).
      unfold MONITOR_INTERVAL, SHUTDOWN_TIMEOUT, SECOND in *. lia.
  - intros last ev c H. destruct ev as [t|t|]; simpl in H.
    + discriminate.
    + destruct (Z.gtb _ _) eqn:E; [|discriminate].
      inversion H; subst. left. exists t. apply Z.gtb_lt in E. split; [reflexivity | lia].
    + inversion H; subst. right. auto.
Qed.

Lemma idle_shutdown_witness :
  (exists n e, idle_ticks n 0 1 (Running 0) = Some e /\
    (0 + SHUTDOWN_TIMEOUT < e <= 0 + SHUTDOWN_TIMEOUT + MONITOR_INTERVAL)%Z) /\
  ((0 + SHUTDOWN_TIMEOUT < 62 * SECOND <= 0 + SHUTDOWN_TIMEOUT + MONITOR_INTERVAL)%Z /\
   (62 * SECOND = 0 + SHUTDOWN_TIMEOUT + MONITOR_INTERVAL
    <-> (2 * SECOND - 0) mod MONITOR_INTERVAL = 0)%Z).
Proof.
  destruct idle_shutdown_window as [H1 [H2 _]]. split.
  - apply (H1 0%Z 0%Z). vm_compute. discriminate.
  - apply (H2 (2 * SECOND)%Z 0%Z 13%nat).
    + vm_compute. discriminate.
    + vm_compute. reflexivity.
Defined.

(** C5 fails as stated: with the ticker started together with the last
    activity, the 12th tick sees exactly 60s idle, which is not more than
    the threshold, and the process exits at the 13th tick, 65s after the
    activity; and the serve loop's failure is a further exit. *)
Lemma idle_shutdown_counterexample :
  idle_ticks 13 0 1 (Running 0) = Some (65 * SECOND)%Z /\
  ~ (65 * SECOND - 0 < SHUTDOWN_TIMEOUT + MONITOR_INTERVAL)%Z /\
  proc_step (Running 0) ServeFailed = Exited 1.
Proof. vm_compute. split; [reflexivity | split; [discriminate | reflexivity]]. Qed.

(** ** Claims on the focus endpoint *)

(** C6 (as amended): a focus request whose query has no (or an empty)
    'uri' parameter is answered with 400 "Missing 'uri' parameter.", while
    the last-activity time is still set to the request time; the request a
    Secondary sends when started without an argument carries no 'uri'. *)
Theorem focus_without_uri_rejected :
  (forall url_parse now q,
   query_get "uri" q = "" ->
   handleFocus url_parse now q = (now, http_error 400 "Missing 'uri' parameter.", None)) /\
  (forall prog, query_get "uri" (ParseQuery (raw_query (secondary_target [prog]))) = "").
Proof.
  split.
  - intros url_parse now q H. unfold handleFocus. rewrite H. reflexivity.
  - intros prog. vm_compute. reflexivity.
Qed.

Lemma focus_without_uri_witness :
  handleFocus (fun _ => None) 7%Z [("type", "1")]
  = (7%Z, http_error 400 "Missing 'uri' parameter.", None).
Proof. apply (proj1 focus_without_uri_rejected). reflexivity. Defined.

(** C6 fails as stated: the bare forward of a Secondary started without
    an argument gets status 400, not a success status. *)
Lemma focus_without_uri_counterexample :
  status (snd (fst (handleFocus (fun _ => None) 0%Z
                      (ParseQuery (raw_query (secondary_target ["gofer"]))))))
  = 400%nat.
Proof. vm_compute. reflexivity. Qed.

(** ** Claims on the follow-up links *)

(** *** The browser model on printable links *)

Lemma verbatim_app : forall a c, verbatim (a ++ c) = verbatim a && verbatim c.
Proof.
  induction a as [|x a IH]; intros c; [reflexivity|].
  cbn [append verbatim]. rewrite IH, andb_assoc. reflexivity.
Qed.

Lemma verbatim_char_facts : forall c, verbatim_char c = true ->
  Ascii.eqb c DQ = false /\ Ascii.eqb c "#" = false /\ is_c0_space c = false /\
  Ascii.eqb c TAB = false /\ Ascii.eqb c NL = false /\ Ascii.eqb c CR = false.
Proof.
  intros c. destruct c as [[] [] [] [] [] [] [] []]; intros H;
    vm_compute in H |- *; try discriminate H; repeat split.
Qed.

Lemma cut_at_verbatim : forall sep s,
  (forall c, verbatim_char c = true -> Ascii.eqb c sep = false) ->
  verbatim s = true -> cut_at sep s = s.
Proof.
  intros sep s Hsep. induction s as [|c s IH]; intros H; [reflexivity|].
  cbn [verbatim] in H. apply andb_prop in H as [Hc Hs].
  cbn [cut_at]. rewrite (Hsep c Hc), IH by exact Hs. reflexivity.
Qed.

Lemma rtrim_verbatim : forall s, verbatim s = true -> rtrim s = s.
Proof.
  induction s as [|c s IH]; intros H; [reflexivity|].
  cbn [verbatim] in H. apply andb_prop in H as [Hc Hs].
  destruct (verbatim_char_facts c Hc) as [_ [_ [Hsp _]]].
  cbn [rtrim]. rewrite IH, Hsp, andb_false_r by exact Hs. reflexivity.
Qed.

Lemma ltrim_verbatim : forall s, verbatim s = true -> ltrim s = s.
Proof.
  intros [|c s] H; [reflexivity|].
  cbn [verbatim] in H. apply andb_prop in H as [Hc _].
  destruct (verbatim_char_facts c Hc) as [_ [_ [Hsp _]]].
  cbn [ltrim]. rewrite Hsp. reflexivity.
Qed.

Lemma remove_tab_nl_verbatim : forall s, verbatim s = true -> remove_tab_nl s = s.
Proof.
  induction s as [|c s IH]; intros H; [reflexivity|].
  cbn [verbatim] in H. apply andb_prop in H as [Hc Hs].
  destruct (verbatim_char_facts c Hc) as [_ [_ [_ [H1 [H2 H3]]]]].
  cbn [remove_tab_nl]. rewrite H1, H2, H3, IH by exact Hs. reflexivity.
Qed.

(** A link of printable ASCII bytes other than space, the double quote
    and '#' is sent as it is written. *)
Lemma browser_target_verbatim : forall s, verbatim s = true -> browser_target s = s.
Proof.
  intros s H. unfold browser_target.
  rewrite (cut_at_verbatim DQ) by (exact H || (intros c Hc; apply (verbatim_char_facts c Hc))).
  rewrite rtrim_verbatim, ltrim_verbatim, remove_tab_nl_verbatim by exact H.
  apply cut_at_verbatim; [|exact H].
  intros c Hc. apply (verbatim_char_facts c Hc).
Qed.

Lemma verbatim_unreserved : forall c, is_unreserved c = true -> verbatim_char c = true.
Proof.
  intros c. destruct c as [[] [] [] [] [] [] [] []]; intros H;
    vm_compute in H |- *; (reflexivity || discriminate H).
Qed.

Lemma verbatim_hex_digit : forall d, verbatim_char (hex_digit d) = true.
Proof.
  intros d. do 16 (destruct d as [|d]; [reflexivity|]). reflexivity.
Qed.

Lemma verbatim_QueryEscape : forall s, verbatim (QueryEscape s) = true.
Proof.
  induction s as [|c s IH]; [reflexivity|].
  cbn [QueryEscape]. rewrite verbatim_app, IH, andb_true_r.
  destruct (is_unreserved c) eqn:Hu.
  - cbn [verbatim ch]. rewrite verbatim_unreserved by exact Hu. reflexivity.
  - destruct (Ascii.eqb c " "); [reflexivity|].
    cbn [verbatim ch]. rewrite !verbatim_hex_digit. reflexivity.
Qed.

Lemma query_safe_spec : forall s, query_safe s = true ->
  contains_byte "&" s = false /\ contains_byte ";" s = false /\
  contains_byte "%" s = false /\ contains_byte "+" s = false.
Proof.
  intros s. unfold query_safe.
  destruct (contains_byte "&" s), (contains_byte ";" s),
           (contains_byte "%" s), (contains_byte "+" s);
    simpl; intuition discriminate.
Qed.

Lemma cut_eq_key : forall k v,
  contains_byte "=" k = false -> cut_eq (k ++ String "=" v) = (k, v).
Proof.
  induction k as [|c k IH]; intros v H; [reflexivity|].
  cbn [contains_byte] in H. apply orb_false_iff in H as [H1 H2].
  cbn [cut_eq append]. rewrite Ascii.eqb_sym, H1, IH by exact H2. reflexivity.
Qed.

Lemma parse_pair_kv : forall k v v',
  contains_byte "=" k = false -> contains_byte ";" k = false ->
  contains_byte ";" v = false ->
  QueryUnescape k = Some k -> QueryUnescape v = Some v' ->
  parse_pair (k ++ String "=" v) = Some (k, v').
Proof.
  intros k v v' H1 H2 H3 H4 H5. unfold parse_pair.
  rewrite contains_byte_app, H2. cbn [contains_byte]. rewrite H3.
  assert (E : String.eqb (k ++ String "=" v) "" = false) by (destruct k; reflexivity).
  rewrite E, cut_eq_key, H4, H5 by exact H1. reflexivity.
Qed.

Lemma ParseQuery_nav_href : forall t h p sel,
  contains_byte "&" (fmt_c t) = false -> contains_byte ";" (fmt_c t) = false ->
  QueryUnescape (fmt_c t) = Some (fmt_c t) ->
  query_safe h = true -> query_safe p = true ->
  ParseQuery (raw_query (nav_href t h p sel))
  = [("type", fmt_c t); ("host", h); ("port", p); ("selector", sel)].
Proof.
  intros t h p sel Ht1 Ht2 Ht3 Hh Hp.
  apply query_safe_spec in Hh as [Ha1 [Hs1 [Hc1 Hq1]]].
  apply query_safe_spec in Hp as [Ha2 [Hs2 [Hc2 Hq2]]].
  assert (Hsa : contains_byte "&" (QueryEscape sel) = false)
    by (apply contains_QueryEscape; reflexivity).
  assert (Hss : contains_byte ";" (QueryEscape sel) = false)
    by (apply contains_QueryEscape; reflexivity).
  change (raw_query (nav_href t h p sel))
    with ("type=" ++ fmt_c t ++ "&host=" ++ h ++ "&port=" ++ p
          ++ "&selector=" ++ QueryEscape sel).
  replace ("type=" ++ fmt_c t ++ "&host=" ++ h ++ "&port=" ++ p
           ++ "&selector=" ++ QueryEscape sel)
    with (("type" ++ String "=" (fmt_c t)) ++ String "&"
          (("host" ++ String "=" h) ++ String "&"
           (("port" ++ String "=" p) ++ String "&"
            ("selector" ++ String "=" (QueryEscape sel)))))
    by (rewrite !sapp_assoc; reflexivity).
  unfold ParseQuery.
  rewrite split_on_app by (rewrite contains_byte_app; cbn [contains_byte]; now rewrite Ht1).
  rewrite split_on_app by (rewrite contains_byte_app; cbn [contains_byte]; now rewrite Ha1).
  rewrite split_on_app by (rewrite contains_byte_app; cbn [contains_byte]; now rewrite Ha2).
  rewrite split_on_single by (rewrite contains_byte_app; cbn [contains_byte]; now rewrite Hsa).
  cbn [flat_map].
  rewrite (parse_pair_kv "type" (fmt_c t) (fmt_c t)) by (reflexivity || assumption).
  rewrite (parse_pair_kv "host" h h)
    by (reflexivity || assumption || now apply QueryUnescape_plain).
  rewrite (parse_pair_kv "port" p p)
    by (reflexivity || assumption || now apply QueryUnescape_plain).
  rewrite (parse_pair_kv "selector" (QueryEscape sel) sel)
    by (reflexivity || assumption || apply QueryUnescape_QueryEscape).
  reflexivity.
Qed.

(** C7 (as amended): for a record of a type rendered through [writeLink]
    ('0', '1', '4', '5', '6', 'g', 'I') whose host and port are printable
    ASCII (no space) containing none of the double quote, '#', '&', ';', '%'
    and '+', the rendered entry links to the gateway's navigation endpoint,
    and the query a browser sends for that link, parsed as [r.URL.Query()]
    does, has no 'uri' and gives back the record's host, port and selector;
    when all three are nonempty the navigation handler fetches exactly that
    host, port and selector. *)
Theorem navigable_link_round_trip : forall url_parse cH cP cS r,
  In (itemType r) ["0"; "1"; "4"; "5"; "6"; "g"; "I"]%char ->
  query_safe (host r) = true -> query_safe (port r) = true ->
  verbatim (host r) = true -> verbatim (port r) = true ->
  (exists icon, render_record cH cP cS r
     = p_open ++ icon ++ anchor (nav_href (itemType r) (host r) (port r) (selector r))
                                (display r) ++ "</p>" ++ nl) /\
  (let q := ParseQuery (raw_query (browser_target
              (nav_href (itemType r) (host r) (port r) (selector r)))) in
   query_get "uri" q = "" /\ query_get "host" q = host r /\
   query_get "port" q = port r /\ query_get "selector" q = selector r /\
   (host r <> "" -> port r <> "" -> selector r <> "" ->
    serve_target url_parse q = (fmt_c (itemType r), host r, port r, selector r))).
Proof.
  intros url_parse cH cP cS [t d sel h p] Ht Hh Hp Hvh Hvp.
  cbn [itemType display selector host port] in *.
  assert (Hc : contains_byte "&" (fmt_c t) = false /\ contains_byte ";" (fmt_c t) = false /\
               QueryUnescape (fmt_c t) = Some (fmt_c t) /\ verbatim (fmt_c t) = true /\
               exists icon, render_record cH cP cS (mkRecord t d sel h p)
                 = p_open ++ icon ++ anchor (nav_href t h p sel) d ++ "</p>" ++ nl).
  { destruct Ht as [<-|[<-|[<-|[<-|[<-|[<-|[<-|[]]]]]]]];
      (split; [reflexivity | split; [reflexivity | split; [reflexivity |
       split; [reflexivity | eexists; reflexivity]]]]). }
  destruct Hc as [Hc1 [Hc2 [Hc3 [Hc4 Hicon]]]].
  split; [exact Hicon|].
  rewrite (browser_target_verbatim (nav_href t h p sel)).
  2:{ unfold nav_href. rewrite !verbatim_app, Hc4, Hvh, Hvp, verbatim_QueryEscape.
      reflexivity. }
  cbv zeta. rewrite ParseQuery_nav_href by assumption.
  split; [reflexivity|]. split; [reflexivity|]. split; [reflexivity|]. split; [reflexivity|].
  intros Hh0 Hp0 Hs0.
  destruct h as [|a h]; [congruence|]. destruct p as [|c p]; [congruence|].
  destruct sel as [|e sel]; [congruence|].
  reflexivity.
Qed.

Lemma navigable_link_witness :
  (exists icon, render_record "example.org" "70" "/" (mkRecord "1" "Docs" "/docs" "example.org" "70")
     = p_open ++ icon ++ anchor (nav_href "1" "example.org" "70" "/docs") "Docs" ++ "</p>" ++ nl) /\
  (let q := ParseQuery (raw_query (browser_target (nav_href "1" "example.org" "70" "/docs"))) in
   query_get "uri" q = "" /\ query_get "host" q = "example.org" /\
   query_get "port" q = "70" /\ query_get "selector" q = "/docs" /\
   ("example.org" <> "" -> "70" <> "" -> "/docs" <> "" ->
    serve_target (fun _ => None) q = (fmt_c "1", "example.org", "70", "/docs"))).
Proof.
  apply (navigable_link_round_trip (fun _ => None) "example.org" "70" "/"
           (mkRecord "1" "Docs" "/docs" "example.org" "70")).
  - simpl. auto.
  - reflexivity.
  - reflexivity.
  - reflexivity.
  - reflexivity.
Defined.

(** C7 fails as stated: the host and port of a record are not escaped in
    its link.  A host containing '&' or '#' comes back cut at it, and the
    port of a line ending in CR LF (the usual line end of a listing) keeps
    the CR, which the browser drops from the link. *)
Lemma navigable_link_counterexample :
  let line := "1D" ++ tab ++ "/x" ++ tab ++ "a&b" ++ tab ++ "70" ++ nl ++ "." ++ nl in
  let crlf := "1D" ++ tab ++ "/x" ++ tab ++ "example.org" ++ tab ++ "70" ++ ch CR ++ nl
              ++ "." ++ ch CR ++ nl in
  parse_menu line "example.org" "70" = Some [mkRecord "1" "D" "/x" "a&b" "70"] /\
  query_get "host" (ParseQuery (raw_query (browser_target (nav_href "1" "a&b" "70" "/x"))))
  = "a" /\
  query_get "host" (ParseQuery (raw_query (browser_target (nav_href "1" "a#b" "70" "/x"))))
  = "a" /\
  parse_menu crlf "example.org" "70"
  = Some [mkRecord "1" "D" "/x" "example.org" ("70" ++ ch CR)] /\
  query_get "port" (ParseQuery (raw_query
    (browser_target (nav_href "1" "example.org" ("70" ++ ch CR) "/x")))) = "70".
Proof. vm_compute. repeat split. Qed.

(** ** Claims on the directory-lookup and index-search handlers *)

(** C8: a POST to the directory-lookup or to the index-search endpoint
    whose 'query' form field is empty after trimming gets status 400 and
    makes no transport call. *)
Theorem empty_query_rejected_without_transport : forall net r f,
  method r = "POST" -> form r = Some f -> TrimSpace (query_get "query" f) = "" ->
  (status (fst (HandlePH net r)) = 400%nat /\ snd (HandlePH net r) = []) /\
  (status (fst (HandleSearch net r)) = 400%nat /\ snd (HandleSearch net r) = []).
Proof.
  intros net r f Hm Hf Hq. split.
  - unfold HandlePH. destruct (ParsePHRoute (path r)) as [[h p]|e]; [|split; reflexivity].
    cbv zeta. rewrite Hm, Hf, Hq. split; reflexivity.
  - unfold HandleSearch. cbv zeta.
    destruct (_ || _ || _); [split; reflexivity|].
    rewrite Hm, Hf, Hq. split; reflexivity.
Qed.

Lemma empty_query_witness :
  let r := mkRequest "POST" "/ph/ns.example.org:105"
             [("host", "example.org"); ("port", "70"); ("selector", "/search")]
             (Some [("query", " " ++ tab ++ " ")]) in
  let net := mkConn None None "" ReadEOF in
  (status (fst (HandlePH net r)) = 400%nat /\ snd (HandlePH net r) = []) /\
  (status (fst (HandleSearch net r)) = 400%nat /\ snd (HandleSearch net r) = []).
Proof.
  apply (empty_query_rejected_without_transport _ _ [("query", " " ++ tab ++ " ")]).
  - reflexivity.
  - reflexivity.
  - vm_compute. reflexivity.
Defined.

Lemma split_on_nonempty : forall sep s, split_on sep s <> [].
Proof.
  intros sep s. induction s as [|c s IH]; cbn [split_on]; [discriminate|].
  destruct (Ascii.eqb c sep); [discriminate|].
  destruct (split_on sep s); discriminate.
Qed.

(** C9 (code bug): [ParsePHRoute] accepts every path, since the list
    [strings.Split] returns is never empty; "/ph/" gives the empty host and
    the default port, and a GET to it opens the greeting connection to
    ":105" instead of being answered with 400. *)
Theorem ph_route_without_host_reaches_transport :
  (forall path, exists h p, ParsePHRoute path = Ok (h, p)) /\
  ParsePHRoute "/ph/" = Ok ("", PH_DEFAULT_PORT) /\
  (forall net,
   snd (HandlePH net (mkRequest "GET" "/ph/" [] None)) = [PHGreetingCall "" PH_DEFAULT_PORT] /\
   status (fst (HandlePH net (mkRequest "GET" "/ph/" [] None))) <> 400%nat).
Proof.
  split; [|split; [reflexivity|]].
  - intros path. unfold ParsePHRoute.
    destruct (split_on ":" (TrimPrefix path "/ph/")) as [|h rest] eqn:E.
    + exfalso. exact (split_on_nonempty _ _ E).
    + destruct rest as [|p1 rest]; do 2 eexists; reflexivity.
  - intros net. unfold HandlePH.
    change (ParsePHRoute (path (mkRequest "GET" "/ph/" [] None))) with (Ok ("", PH_DEFAULT_PORT)).
    cbv zeta. change (String.eqb (method (mkRequest "GET" "/ph/" [] None)) "POST") with false.
    cbv iota.
    destruct (PHInitialGreeting net "" PH_DEFAULT_PORT); split; try reflexivity; cbn; lia.
Qed.

(** * Further properties of the code *)

(** ** The directory parser *)

Lemma split_on_in_no_sep : forall sep s x,
  In x (split_on sep s) -> contains_byte sep x = false.
Proof.
  intros sep s. induction s as [|c r IH]; intros x Hin; cbn [split_on] in Hin.
  - destruct Hin as [<-|[]]. reflexivity.
  - destruct (Ascii.eqb c sep) eqn:E.
    + destruct Hin as [<-|Hin]; [reflexivity | exact (IH x Hin)].
    + destruct (split_on sep r) as [|f fs] eqn:Hr.
      * destruct Hin as [<-|[]]. cbn [contains_byte ch]. rewrite Ascii.eqb_sym, E. reflexivity.
      * destruct Hin as [<-|Hin].
        -- cbn [contains_byte]. rewrite Ascii.eqb_sym, E, (IH f (or_introl eq_refl)). reflexivity.
        -- exact (IH x (or_intror Hin)).
Qed.

Lemma split_on_in_sub : forall sep c0 s x,
  In x (split_on sep s) -> contains_byte c0 s = false -> contains_byte c0 x = false.
Proof.
  intros sep c0 s. induction s as [|c r IH]; intros x Hin Hs; cbn [split_on] in Hin.
  - destruct Hin as [<-|[]]. reflexivity.
  - cbn [contains_byte] in Hs. apply orb_false_iff in Hs as [Hc Hr'].
    destruct (Ascii.eqb c sep).
    + destruct Hin as [<-|Hin]; [reflexivity | exact (IH x Hin Hr')].
    + destruct (split_on sep r) as [|f fs] eqn:Hr.
      * destruct Hin as [<-|[]]. cbn [contains_byte ch]. rewrite Hc. reflexivity.
      * destruct Hin as [<-|Hin].
        -- cbn [contains_byte]. rewrite Hc, (IH f (or_introl eq_refl) Hr'). reflexivity.
        -- exact (IH x (or_intror Hin) Hr').
Qed.

Lemma parse_line_emit_wf : forall cH cP l r,
  contains_byte NL l = false -> parse_line cH cP l = LEmit r -> record_wf cH cP r.
Proof.
  intros cH cP l r Hnl H. unfold parse_line in H.
  destruct (String.eqb (TrimSpace l) "") ; [discriminate|].
  destruct (String.eqb (TrimSpace l) ".") ; [discriminate|].
  cbv zeta in H.
  assert (Hin : forall x, In x (split_on TAB l) ->
                contains_byte TAB x = false /\ contains_byte NL x = false).
  { intros x Hx. split; [exact (split_on_in_no_sep _ _ _ Hx) | exact (split_on_in_sub _ _ _ _ Hx Hnl)]. }
  destruct (Nat.ltb (List.length (split_on TAB l)) 4).
  - destruct (String.eqb (TrimRight (malformed_prefix ++ TrimSpace l) display_cutset) "") eqn:E;
      [discriminate|].
    apply String.eqb_neq in E.
    injection H as <-. split.
    + exact E.
    + left. repeat split.
  - destruct (split_on TAB l) as [|f0 [|f1 [|f2 [|f3 more]]]] eqn:Hs; try discriminate.
    destruct f0 as [|t rest]; [discriminate|].
    destruct (String.eqb (TrimRight rest display_cutset) "") eqn:E; [discriminate|].
    apply String.eqb_neq in E.
    injection H as <-. split.
    + exact E.
    + right. cbn [selector host port].
      destruct (Hin f1) as [A1 B1]; [simpl; auto|].
      destruct (Hin f2) as [A2 B2]; [simpl; auto|].
      destruct (Hin f3) as [A3 B3]; [simpl; auto|].
      repeat split; assumption.
Qed.

Lemma parse_lines_wf : forall cH cP lines recs,
  (forall l, In l lines -> contains_byte NL l = false) ->
  parse_lines cH cP lines = Some recs -> Forall (record_wf cH cP) recs.
Proof.
  intros cH cP lines. induction lines as [|l ls IH]; intros recs Hl H; cbn [parse_lines] in H.
  - injection H as <-. constructor.
  - destruct (parse_line cH cP l) as [| | |r] eqn:E.
    + exact (IH recs (fun x Hx => Hl x (or_intror Hx)) H).
    + injection H as <-. constructor.
    + discriminate.
    + destruct (parse_lines cH cP ls) as [rs|] eqn:Hr; [|discriminate].
      injection H as <-. constructor.
      * exact (parse_line_emit_wf cH cP l r (Hl l (or_introl eq_refl)) E).
      * exact (IH rs (fun x Hx => Hl x (or_intror Hx)) eq_refl).
Qed.

(** Every record the parser yields has a non-empty display, and it is
    either a type-'3' record with selector "/" and the calling context's
    host and port, or its selector, host and port hold no tab and no
    newline. *)
Theorem parse_menu_records_wf : forall raw cH cP recs,
  parse_menu raw cH cP = Some recs -> Forall (record_wf cH cP) recs.
Proof.
  intros raw cH cP recs H. apply (parse_lines_wf cH cP (split_on NL raw)); [|exact H].
  intros l Hl. exact (split_on_in_no_sep _ _ _ Hl).
Qed.

Lemma parse_menu_records_wf_witness :
  Forall (record_wf "example.org" "70")
    [mkRecord "1" "A Directory" "/sub" "example.org" "70"].
Proof.
  apply (parse_menu_records_wf
           ("1A Directory" ++ tab ++ "/sub" ++ tab ++ "example.org" ++ tab ++ "70"
            ++ nl ++ "." ++ nl)).
  vm_compute. reflexivity.
Defined.

(** A blank line of the reply is skipped, and a line that is "." after
    trimming ends the listing: nothing after it is parsed, not even a line
    that would make the parser panic. *)
Theorem parse_menu_blank_and_terminator : forall cH cP l rest,
  contains_byte NL l = false ->
  (TrimSpace l = "" -> parse_menu (l ++ nl ++ rest) cH cP = parse_menu rest cH cP) /\
  (TrimSpace l = "." -> parse_menu (l ++ nl ++ rest) cH cP = Some []).
Proof.
  intros cH cP l rest Hnl.
  change (l ++ nl ++ rest) with (l ++ String NL rest).
  unfold parse_menu. rewrite split_on_app by exact Hnl.
  split; intros H; cbn [parse_lines]; unfold parse_line; rewrite H; reflexivity.
Qed.

Lemma parse_menu_blank_and_terminator_witness :
  parse_menu ((" ." ++ ch CR) ++ nl ++ tab ++ "/sel" ++ tab ++ "h" ++ tab ++ "70") "h" "70"
  = Some [].
Proof.
  apply (proj2 (parse_menu_blank_and_terminator "h" "70" (" ." ++ ch CR) _ eq_refl)).
  vm_compute. reflexivity.
Defined.

(** ** The legacy line loop *)

Lemma split_on_app_sep : forall sep a b,
  split_on sep (a ++ String sep b) = (split_on sep a ++ split_on sep b)%list.
Proof.
  intros sep a b. induction a as [|c a IH].
  - cbn [append split_on]. rewrite Ascii.eqb_refl. reflexivity.
  - cbn [append split_on]. rewrite IH.
    destruct (Ascii.eqb c sep); [reflexivity|].
    destruct (split_on sep a) as [|f fs] eqn:E.
    + exfalso. exact (split_on_nonempty _ _ E).
    + reflexivity.
Qed.

Lemma legacy_parse_lines_app : forall cH cP l1 l2,
  LegacyMenu.parse_lines cH cP (l1 ++ l2)
  = match LegacyMenu.parse_lines cH cP l1 with
    | None => None
    | Some x => option_map (app x) (LegacyMenu.parse_lines cH cP l2)
    end.
Proof.
  intros cH cP l1 l2. induction l1 as [|l ls IH]; cbn [app LegacyMenu.parse_lines].
  - destruct (LegacyMenu.parse_lines cH cP l2); reflexivity.
  - destruct (LegacyMenu.parse_line cH cP l) as [[r|]|]; [|exact IH|reflexivity].
    rewrite IH. destruct (LegacyMenu.parse_lines cH cP ls); [|reflexivity].
    destruct (LegacyMenu.parse_lines cH cP l2); reflexivity.
Qed.

(** In src/gofer.go the loop works line by line: the records of a reply
    split at a newline are those of the first part followed by those of
    the second (a panic in either part is a panic of the whole), and a "."
    line is skipped like a blank one rather than ending the listing. *)
Theorem legacy_parse_menu_linewise : forall cH cP a b,
  LegacyMenu.parse_menu (a ++ String NL b) cH cP
  = match LegacyMenu.parse_menu a cH cP with
    | None => None
    | Some x => option_map (app x) (LegacyMenu.parse_menu b cH cP)
    end /\
  LegacyMenu.parse_menu ("." ++ String NL b) cH cP = LegacyMenu.parse_menu b cH cP.
Proof.
  intros cH cP a b.
  assert (H : forall a, LegacyMenu.parse_menu (a ++ String NL b) cH cP
              = match LegacyMenu.parse_menu a cH cP with
                | None => None
                | Some x => option_map (app x) (LegacyMenu.parse_menu b cH cP)
                end).
  { intros a'. unfold LegacyMenu.parse_menu. rewrite split_on_app_sep.
    apply legacy_parse_lines_app. }
  split; [apply H|].
  rewrite H. change (LegacyMenu.parse_menu "." cH cP) with (Some (@nil DirRecord)).
  destruct (LegacyMenu.parse_menu b cH cP); reflexivity.
Qed.

(** ** The Primary's lifetime *)

(** As long as every tick of the monitor comes at most 60s after the last
    recorded activity (as with the pages' heartbeat every 55s) and the
    serve loop does not fail, the Primary keeps running, with the time of
    the last activity as its last-request time. *)
Theorem run_keeps_alive : forall evs last,
  ticks_within last evs = true ->
  run (Running last) evs = Running (last_activity last evs).
Proof.
  induction evs as [|e evs IH]; intros last H; [reflexivity|].
  destruct e as [t|t|]; cbn [ticks_within] in H.
  - change (run (Running last) (Activity t :: evs)) with (run (Running t) evs).
    change (last_activity last (Activity t :: evs)) with (last_activity t evs).
    exact (IH t H).
  - apply andb_true_iff in H as [H1 H2]. apply Z.leb_le in H1.
    change (run (Running last) (Tick t :: evs)) with (run (proc_step (Running last) (Tick t)) evs).
    change (last_activity last (Tick t :: evs)) with (last_activity last evs).
    cbn [proc_step]. rewrite Z.gtb_ltb.
    replace (Z.ltb SHUTDOWN_TIMEOUT (t - last)) with false by (symmetry; apply Z.ltb_ge; lia).
    exact (IH last H2).
  - discriminate.
Qed.

Lemma run_keeps_alive_witness :
  run (Running 0) [Tick (5 * SECOND); Activity (30 * SECOND); Tick (80 * SECOND);
                   Tick (85 * SECOND)]
  = Running (30 * SECOND).
Proof.
  rewrite (run_keeps_alive _ 0%Z) by (vm_compute; reflexivity).
  vm_compute. reflexivity.
Defined.

(** ** The navigation handler *)

(** Once both fetches of [serveGopher] succeed, the first byte of the
    'type' hint (a menu, '1', when there is none) picks the response: '0'
    serves the second reply as plain text, 'i' serves the first reply as
    plain text, '1' renders the second reply as a menu page, and any other
    type serves the second reply's bytes with the type
    [http.DetectContentType] gives them. *)
Theorem serveGopher_dispatch :
  forall url_parse DetectContentType net q ty h p sel r0 r1,
  serve_target url_parse q = (ty, h, p, sel) ->
  gopherRequest (net 0%nat) h p sel = Ok r0 ->
  gopherRequestBytes (net 1%nat) h p sel = Ok r1 ->
  let g := match ty with String c _ => c | EmptyString => "1"%char end in
  let resp := serveGopher url_parse DetectContentType net q in
  (g = "0"%char -> resp = mkResponse 200 "text/plain; charset=utf-8" (Some r1)) /\
  (g = "i"%char -> resp = mkResponse 200 "text/plain; charset=utf-8" (Some r0)) /\
  (g = "1"%char -> resp = html_page (formatMenuHTML r1 h p sel false)) /\
  (g <> "0"%char -> g <> "i"%char -> g <> "1"%char ->
   resp = mkResponse 200 (DetectContentType r1) (Some r1)).
Proof.
  intros url_parse DetectContentType net q ty h p sel r0 r1 Hq H0 H1 g resp.
  assert (H1' : gopherRequest (net 1%nat) h p sel = Ok r1)
    by (unfold gopherRequest; now rewrite H1).
  unfold resp, serveGopher. rewrite Hq, H0. fold g.
  repeat split.
  - intros ->. cbn. rewrite H1'. reflexivity.
  - intros ->. cbn. rewrite H1. reflexivity.
  - intros ->. cbn. rewrite H1'. reflexivity.
  - intros A B C.
    assert (Ht : isTransparentType g = false).
    { unfold isTransparentType. apply orb_false_iff.
      split; apply Ascii.eqb_neq; assumption. }
    rewrite Ht, H1.
    apply Ascii.eqb_neq in A, B, C. rewrite A, B, C. reflexivity.
Qed.

Lemma serveGopher_dispatch_witness :
  serveGopher (fun _ => None) (fun _ => "image/gif")
    (fun n => mkConn None None (if Nat.eqb n 0 then "first" else "second") ReadEOF)
    [("type", "i")]
  = mkResponse 200 "text/plain; charset=utf-8" (Some "first").
Proof.
  refine (proj1 (proj2 (serveGopher_dispatch _ _ _ _ "i" DEFAULT_GOPHER_HOST
                          DEFAULT_GOPHER_PORT "/" "first" "second" _ _ _)) _);
    reflexivity.
Defined.

(** ** The directory-lookup route *)

(** [ParsePHRoute] never yields a host containing ':' nor an empty port;
    "/ph/<host>:<port>" gives that host and port when neither holds a ':'
    and the port is non-empty, and "/ph/<host>" gives the default port 105. *)
Theorem ParsePHRoute_shape :
  (forall path h p, ParsePHRoute path = Ok (h, p) ->
   contains_byte ":" h = false /\ p <> "") /\
  (forall h p, contains_byte ":" h = false -> contains_byte ":" p = false -> p <> "" ->
   ParsePHRoute ("/ph/" ++ h ++ ":" ++ p) = Ok (h, p)) /\
  (forall h, contains_byte ":" h = false ->
   ParsePHRoute ("/ph/" ++ h) = Ok (h, PH_DEFAULT_PORT)).
Proof.
  split; [|split].
  - intros path h p H. unfold ParsePHRoute in H.
    destruct (split_on ":" (TrimPrefix path "/ph/")) as [|h0 rest] eqn:E; [discriminate|].
    cbn [List.length Nat.ltb Nat.leb] in H.
    assert (Hh : contains_byte ":" h0 = false)
      by (apply (split_on_in_no_sep ":" (TrimPrefix path "/ph/")); rewrite E; left; reflexivity).
    destruct rest as [|p1 rest]; injection H as <- <-; (split; [exact Hh|]).
    + discriminate.
    + destruct (String.eqb p1 "") eqn:Ep; [discriminate|].
      apply String.eqb_neq in Ep. exact Ep.
  - intros h p Hh Hp Hne. unfold ParsePHRoute, TrimPrefix.
    rewrite strip_prefix_self.
    change (":" ++ p) with (String ":" p).
    rewrite split_on_app, split_on_single by assumption.
    apply String.eqb_neq in Hne. cbn [List.length Nat.ltb Nat.leb]. rewrite Hne. reflexivity.
  - intros h Hh. unfold ParsePHRoute, TrimPrefix.
    rewrite strip_prefix_self, split_on_single by assumption. reflexivity.
Qed.

Lemma ParsePHRoute_shape_witness :
  ParsePHRoute ("/ph/" ++ "ns.example.org" ++ ":" ++ "1105") = Ok ("ns.example.org", "1105").
Proof.
  apply (proj1 (proj2 ParsePHRoute_shape)); [reflexivity | reflexivity | discriminate].
Defined.

(** ** Links into the search and directory-lookup handlers *)



Lemma raw_query_app : forall a b,
  contains_byte "?" a = false -> raw_query (a ++ String "?" b) = b.
Proof.
  induction a as [|c a IH]; intros b H; [reflexivity|].
  cbn [contains_byte] in H. apply orb_false_iff in H as [H1 H2].
  cbn [append raw_query]. rewrite Ascii.eqb_sym, H1. exact (IH b H2).
Qed.


(** The query "host=...&port=...&selector=..." of the gateway's links. *)
Lemma ParseQuery_hps : forall h p s' v,
  query_safe h = true -> query_safe p = true ->
  contains_byte "&" s' = false -> contains_byte ";" s' = false ->
  QueryUnescape s' = Some v ->
  ParseQuery ("host=" ++ h ++ "&port=" ++ p ++ "&selector=" ++ s')
  = [("host", h); ("port", p); ("selector", v)].
Proof.
  intros h p s' v Hh Hp Ha Hs Hv.
  apply query_safe_spec in Hh as [Ha1 [Hs1 [Hc1 Hq1]]].
  apply query_safe_spec in Hp as [Ha2 [Hs2 [Hc2 Hq2]]].
  replace ("host=" ++ h ++ "&port=" ++ p ++ "&selector=" ++ s')
    with (("host" ++ String "=" h) ++ String "&"
          (("port" ++ String "=" p) ++ String "&" ("selector" ++ String "=" s')))
    by (rewrite !sapp_assoc; reflexivity).
  unfold ParseQuery.
  rewrite split_on_app by (rewrite contains_byte_app; cbn [contains_byte]; now rewrite Ha1).
  rewrite split_on_app by (rewrite contains_byte_app; cbn [contains_byte]; now rewrite Ha2).
  rewrite split_on_single by (rewrite contains_byte_app; cbn [contains_byte]; now rewrite Ha).
  cbn [flat_map].
  rewrite (parse_pair_kv "host" h h)
    by (reflexivity || assumption || now apply QueryUnescape_plain).
  rewrite (parse_pair_kv "port" p p)
    by (reflexivity || assumption || now apply QueryUnescape_plain).
  rewrite (parse_pair_kv "selector" s' v) by (reflexivity || assumption).
  reflexivity.
Qed.

(** Following the link of a type-'7' record (a GET to /search) whose host
    and port are printable ASCII (no space) holding none of the double
    quote, '#', '&', ';', '%', '+' shows the search form for that host, port
    and selector, returning to "/", without contacting any server; when any
    of the three is empty it gets 400 instead. *)
Theorem search_link_opens_search_form : forall net cH cP cS d sel h p,
  query_safe h = true -> query_safe p = true ->
  verbatim h = true -> verbatim p = true ->
  let href := "/search?host=" ++ h ++ "&port=" ++ p ++ "&selector=" ++ QueryEscape sel in
  render_record cH cP cS (mkRecord "7" d sel h p)
  = p_open ++ "[ 7 ]" ++ anchor href d ++ "</p>" ++ nl /\
  HandleSearch net (follow "GET" href None)
  = (if String.eqb h "" || String.eqb p "" || String.eqb sel "" then
       (http_error 400 "Missing host, port, or selector", [])
     else (html_page (Some (renderSearchFrame "" h p sel "/")), [])).
Proof.
  intros net cH cP cS d sel h p Hh Hp Hvh Hvp href. split; [reflexivity|].
  assert (Hb : browser_target href = href).
  { apply browser_target_verbatim. unfold href.
    rewrite !verbatim_app, Hvh, Hvp, verbatim_QueryEscape. reflexivity. }
  assert (Hq : ParseQuery (raw_query href)
               = [("host", h); ("port", p); ("selector", sel)]).
  { change (raw_query href)
      with ("host=" ++ h ++ "&port=" ++ p ++ "&selector=" ++ QueryEscape sel).
    apply ParseQuery_hps; try assumption.
    - apply contains_QueryEscape; reflexivity.
    - apply contains_QueryEscape; reflexivity.
    - apply QueryUnescape_QueryEscape. }
  unfold HandleSearch, follow. rewrite Hb. cbn [url_query method form]. rewrite Hq.
  reflexivity.
Qed.

Lemma search_link_witness :
  let href := "/search?host=" ++ "example.org" ++ "&port=" ++ "70" ++ "&selector="
              ++ QueryEscape "/find me" in
  render_record "h" "70" "/" (mkRecord "7" "Search" "/find me" "example.org" "70")
  = p_open ++ "[ 7 ]" ++ anchor href "Search" ++ "</p>" ++ nl /\
  HandleSearch (mkConn None None "" ReadEOF) (follow "GET" href None)
  = (html_page (Some (renderSearchFrame "" "example.org" "70" "/find me" "/")), []).
Proof.
  apply (search_link_opens_search_form _ "h" "70" "/" "Search" "/find me" "example.org" "70");
    reflexivity.
Defined.




Lemma ParseQuery_focus_target : forall prog arg rest,
  ParseQuery (raw_query (secondary_target (prog :: arg :: rest))) = [("uri", arg)].
Proof.
  intros prog arg rest. unfold secondary_target.
  replace ("http://localhost:" ++ LOCAL_SERVER_PORT ++ FOCUS_ENDPOINT ++ "?uri=" ++ QueryEscape arg)
    with (("http://localhost:" ++ LOCAL_SERVER_PORT ++ FOCUS_ENDPOINT)
          ++ String "?" ("uri" ++ String "=" (QueryEscape arg)))
    by (rewrite !sapp_assoc; reflexivity).
  rewrite raw_query_app by reflexivity.
  unfold ParseQuery.
  rewrite split_on_single
    by (rewrite contains_byte_app; cbn [contains_byte];
        rewrite contains_QueryEscape by reflexivity; reflexivity).
  cbn [flat_map].
  rewrite (parse_pair_kv "uri" (QueryEscape arg) arg)
    by first [reflexivity | apply QueryUnescape_QueryEscape
             | apply contains_QueryEscape; reflexivity].
  reflexivity.
Qed.

(** A Secondary started with a nonempty argument [arg] sends a focus
    request whose 'uri' parameter is [arg] again. When [url.Parse] reads
    [arg] as a gopher URI, [handleFocus] answers 200 and hands the browser
    exactly the page a Primary started with the same arguments opens;
    otherwise it answers 400 "Invalid gopher URI." and launches nothing
    (where a Primary would open the default page). *)
Theorem focus_forwards_launch_url : forall url_parse now prog arg rest,
  arg <> "" ->
  handleFocus url_parse now (ParseQuery (raw_query (secondary_target (prog :: arg :: rest))))
  = match url_parse arg with
    | Some u =>
        if String.eqb (scheme u) "gopher" then
          let l := initial_url url_parse (prog :: arg :: rest) in
          (now, mkResponse 200 "text/plain; charset=utf-8"
                  (Some ("Redirecting session to: " ++ l)), Some l)
        else (now, http_error 400 "Invalid gopher URI.", None)
    | None => (now, http_error 400 "Invalid gopher URI.", None)
    end.
Proof.
  intros url_parse now prog arg rest Harg.
  rewrite ParseQuery_focus_target.
  unfold handleFocus. cbn [query_get].
  change (String.eqb "uri" "uri") with true. cbv iota.
  apply String.eqb_neq in Harg. rewrite Harg.
  unfold initial_url.
  destruct (url_parse arg) as [u|]; [|reflexivity].
  destruct (String.eqb (scheme u) "gopher"); reflexivity.
Qed.

Lemma focus_forwards_launch_url_witness :
  let up := fun s => if String.eqb s "gopher://sdf.org/1/users"
                     then Some (mkURL "gopher" "sdf.org" "" "/1/users") else None in
  handleFocus up 3%Z (ParseQuery (raw_query
                        (secondary_target ["gofer"; "gopher://sdf.org/1/users"])))
  = (3%Z, mkResponse 200 "text/plain; charset=utf-8"
            (Some "Redirecting session to: http://localhost:8000/?host=sdf.org&port=70&selector=1/users"),
     Some "http://localhost:8000/?host=sdf.org&port=70&selector=1/users").
Proof.
  cbv zeta.
  rewrite focus_forwards_launch_url by discriminate.
  vm_compute. reflexivity.
Defined.

(** The page a Primary started with a gopher URI [arg] opens in the
    browser makes [serveGopher] fetch the URI's host (the default host when
    it is empty), its port (70 when it is empty) and its path without the
    leading '/', percent- and '+'-decoded as a query value (the path is
    written into the URL unescaped), or "/" when that is empty; no type hint
    is given. This holds when the browser is handed the URL as it is (as
    [open] and [xdg-open] do), when host, port and that selector are
    printable ASCII (no space) without the double quote and '#', host and
    port hold none of '&', ';', '%', '+' and the selector neither '&' nor
    ';'. *)
Theorem launch_url_target : forall url_parse prog arg rest u v,
  url_parse arg = Some u -> scheme u = "gopher" ->
  query_safe (hostname u) = true -> verbatim (hostname u) = true ->
  query_safe (uport u) = true -> verbatim (uport u) = true ->
  contains_byte "&" (TrimPrefix (upath u) "/") = false ->
  contains_byte ";" (TrimPrefix (upath u) "/") = false ->
  verbatim (TrimPrefix (upath u) "/") = true ->
  QueryUnescape (TrimPrefix (upath u) "/") = Some v ->
  serve_target url_parse
    (ParseQuery (raw_query (browser_target (initial_url url_parse (prog :: arg :: rest)))))
  = ("", (if String.eqb (hostname u) "" then DEFAULT_GOPHER_HOST else hostname u),
     (if String.eqb (uport u) "" then DEFAULT_GOPHER_PORT else uport u),
     (if String.eqb v "" then "/" else v)).
Proof.
  intros url_parse prog arg rest u v Hu Hs Hh Hvh Hp Hvp Ha Hsc Hvs Hv.
  unfold initial_url. rewrite Hu, Hs. cbn [String.eqb Ascii.eqb Bool.eqb andb].
  set (p' := if String.eqb (uport u) "" then DEFAULT_GOPHER_PORT else uport u).
  set (s' := TrimPrefix (upath u) "/") in *.
  assert (Hp' : query_safe p' = true /\ String.eqb p' "" = false /\ verbatim p' = true).
  { unfold p'. destruct (String.eqb (uport u) "") eqn:E; [repeat split|].
    auto. }
  destruct Hp' as [Hp1 [Hp2 Hp3]].
  rewrite browser_target_verbatim
    by (rewrite !verbatim_app, Hvh, Hp3, Hvs; reflexivity).
  replace ("http://localhost:" ++ LOCAL_SERVER_PORT ++ "/?host=" ++ hostname u
           ++ "&port=" ++ p' ++ "&selector=" ++ s')
    with (("http://localhost:" ++ LOCAL_SERVER_PORT ++ "/")
          ++ String "?" ("host=" ++ hostname u ++ "&port=" ++ p' ++ "&selector=" ++ s'))
    by (rewrite !sapp_assoc; reflexivity).
  rewrite raw_query_app by reflexivity.
  rewrite (ParseQuery_hps _ _ _ v) by assumption.
  unfold serve_target. cbn [query_get].
  change (String.eqb "host" "uri") with false. change (String.eqb "port" "uri") with false.
  change (String.eqb "selector" "uri") with false.
  change (String.eqb "host" "type") with false. change (String.eqb "port" "type") with false.
  change (String.eqb "selector" "type") with false.
  change (String.eqb "host" "host") with true. change (String.eqb "port" "host") with false.
  change (String.eqb "host" "port") with false. change (String.eqb "port" "port") with true.
  change (String.eqb "host" "selector") with false.
  change (String.eqb "port" "selector") with false.
  change (String.eqb "selector" "selector") with true.
  cbv iota. cbn [negb String.eqb]. rewrite Hp2. reflexivity.
Qed.

Lemma launch_url_target_witness :
  let up := fun s => if String.eqb s "gopher://sdf.org/1/phlogs+2024"
                     then Some (mkURL "gopher" "sdf.org" "" "/1/phlogs+2024") else None in
  serve_target up (ParseQuery (raw_query (browser_target
                     (initial_url up ["gofer"; "gopher://sdf.org/1/phlogs+2024"]))))
  = ("", "sdf.org", "70", "1/phlogs 2024").
Proof.
  cbv zeta.
  rewrite (launch_url_target _ _ _ _ (mkURL "gopher" "sdf.org" "" "/1/phlogs+2024")
             "1/phlogs 2024") by (vm_compute; reflexivity).
  vm_compute. reflexivity.
Defined.

(** The connections [HandleSearch] opens: exactly one [SearchQuery] call,
    with the host, port and selector parameters and the trimmed query, for
    a POST whose host, port and selector are nonempty and whose form carries
    a query that is nonempty once trimmed; none for every other request, in
    particular none for the GET landing page. *)
Theorem HandleSearch_connects_only_to_search : forall net r,
  let h := query_get "host" (url_query r) in
  let p := query_get "port" (url_query r) in
  let sel := query_get "selector" (url_query r) in
  snd (HandleSearch net r)
  = match form r with
    | Some f =>
        if String.eqb (method r) "POST" && negb (String.eqb h "") && negb (String.eqb p "")
           && negb (String.eqb sel "") && negb (String.eqb (TrimSpace (query_get "query" f)) "")
        then [SearchCall h p sel (TrimSpace (query_get "query" f))]
        else []
    | None => []
    end.
Proof.
  intros net r. cbv zeta. unfold HandleSearch. cbv zeta.
  destruct (String.eqb (query_get "host" (url_query r)) "");
    [destruct (form r); rewrite ?andb_false_r; reflexivity|].
  destruct (String.eqb (query_get "port" (url_query r)) "");
    [destruct (form r); rewrite ?andb_false_r; reflexivity|].
  destruct (String.eqb (query_get "selector" (url_query r)) "");
    [destruct (form r); rewrite ?andb_false_r; reflexivity|].
  cbn [orb negb]. rewrite ?andb_true_r.
  destruct (String.eqb (method r) "GET") eqn:G.
  - apply String.eqb_eq in G. rewrite G. destruct (form r); reflexivity.
  - destruct (String.eqb (method r) "POST"); [|destruct (form r); reflexivity].
    destruct (form r) as [f|]; [|reflexivity].
    cbn [andb]. destruct (String.eqb (TrimSpace (query_get "query" f)) ""); [reflexivity|].
    destruct (SearchQuery _ _ _ _ _); reflexivity.
Qed.

(** The connections [HandlePH] opens: none when [ParsePHRoute] rejects
    the path; for an accepted path, to the host and port it returns, one
    [PHQuery] call with the trimmed query for a POST whose form carries a
    query that is nonempty once trimmed (none for any other POST), and one
    [PHInitialGreeting] call for every other method. *)
Theorem HandlePH_connects_only_to_route : forall net r,
  snd (HandlePH net r)
  = match ParsePHRoute (path r) with
    | Err _ => []
    | Ok (h, p) =>
        if String.eqb (method r) "POST" then
          match form r with
          | Some f =>
              if String.eqb (TrimSpace (query_get "query" f)) "" then []
              else [PHQueryCall h p (TrimSpace (query_get "query" f))]
          | None => []
          end
        else [PHGreetingCall h p]
    end.
Proof.
  intros net r. unfold HandlePH.
  destruct (ParsePHRoute (path r)) as [[h p]|e]; [|reflexivity].
  cbv zeta.
  destruct (String.eqb (method r) "POST").
  - destruct (form r) as [f|]; [|reflexivity].
    destruct (String.eqb (TrimSpace (query_get "query" f)) ""); [reflexivity|].
    destruct (PHQuery _ _ _ _); reflexivity.
  - destruct (PHInitialGreeting _ _ _); reflexivity.
Qed.

Lemma read_line_first : forall g rest,
  contains_byte NL g = false -> read_line (g ++ String NL rest) = Some (g ++ ch NL, rest).
Proof.
  induction g as [|c g IH]; intros rest H.
  - cbn [append read_line]. rewrite Ascii.eqb_refl. reflexivity.
  - cbn [contains_byte] in H. apply orb_false_iff in H as [H1 H2].
    cbn [append read_line]. rewrite Ascii.eqb_sym, H1, IH by exact H2. reflexivity.
Qed.

Lemma read_line_none : forall s, contains_byte NL s = false -> read_line s = None.
Proof.
  induction s as [|c s IH]; intros H; [reflexivity|].
  cbn [contains_byte] in H. apply orb_false_iff in H as [H1 H2].
  cbn [read_line]. rewrite Ascii.eqb_sym, H1, IH by exact H2. reflexivity.
Qed.

(** Once connected, a PH session reads the reply line by line: the greeting
    page shows the first line, trimmed, and a query's result is everything
    after that first line, trimmed, however the reading ends (end of
    stream, deadline or error). A reply with no newline is an error for
    both: the text of what ended the read, after "PH read failed: " for the
    greeting, even when the server closed the connection normally. *)
Theorem PH_reply_first_line :
  (forall net h p q g rest,
   dial_error net = None -> contains_byte NL g = false -> reply net = g ++ String NL rest ->
   PHInitialGreeting net h p = Ok (TrimSpace (g ++ ch NL)) /\
   PHQuery net h p q = Ok (TrimSpace rest)) /\
  (forall net h p q,
   dial_error net = None -> contains_byte NL (reply net) = false ->
   PHInitialGreeting net h p = Err ("PH read failed: " ++ read_end_text (reply_end net)) /\
   PHQuery net h p q = Err (read_end_text (reply_end net))).
Proof.
  split.
  - intros net h p q g rest Hd Hg Hr. unfold PHInitialGreeting, PHQuery.
    rewrite Hd, Hr, read_line_first by exact Hg. split; reflexivity.
  - intros net h p q Hd Hr. unfold PHInitialGreeting, PHQuery.
    rewrite Hd, read_line_none by exact Hr. split; reflexivity.
Qed.

Lemma PH_reply_first_line_witness :
  (PHInitialGreeting (mkConn None None ("200:Ready" ++ ch CR ++ nl ++ "-200:1:name: Ann")
                        ReadTimeout) "ns.example" "105" = Ok "200:Ready" /\
   PHQuery (mkConn None None ("200:Ready" ++ ch CR ++ nl ++ "-200:1:name: Ann")
              ReadTimeout) "ns.example" "105" "name=ann" = Ok "-200:1:name: Ann") /\
  (PHInitialGreeting (mkConn None None "200:Ready" ReadEOF) "ns.example" "105"
   = Err "PH read failed: EOF" /\
   PHQuery (mkConn None None "200:Ready" ReadEOF) "ns.example" "105" "name=ann" = Err "EOF").
Proof.
  split.
  - destruct (proj1 PH_reply_first_line
                (mkConn None None ("200:Ready" ++ ch CR ++ nl ++ "-200:1:name: Ann") ReadTimeout)
                "ns.example" "105" "name=ann" ("200:Ready" ++ ch CR) "-200:1:name: Ann")
      as [H1 H2]; try reflexivity.
    rewrite H1, H2. split; vm_compute; reflexivity.
  - apply (proj2 PH_reply_first_line); reflexivity.
Defined.
